(** * The clinic bookings page: [ClinicBookingsPage]

    A shallow embedding of
    [src/app/(admin)/admin/przychodnia/rezerwacje/page.tsx]: the server
    component that lists the bookings of the clinic owned by the signed-in
    user, paginated, filtered and sorted from the query string.

    Layout of the development:
    - [JS]: the fragment of JavaScript the page relies on (binary64
      numbers, [parseInt], [String.prototype.split], [Math.ceil]);
    - [Drizzle]: the conditions and order terms the page builds ([eq],
      [like], [inArray], [gte], [lte], [and], [asc], [desc]) and their
      meaning on a row;
    - [Database]: what a select and a count statement answer, given the
      rows of the table;
    - the page itself, statement by statement, in a small monad that logs
      the awaited calls and stops at [redirect], [notFound] or a rejected
      statement;
    - the properties of the page. *)

From Stdlib Require Import ZArith QArith Qround Qpower Qreduction.
From Stdlib Require Import Ascii String List OrdersEx Lia Lqa.
From stdpp Require Import base option list sorting.

Set Warnings "-register-all".

Local Open Scope Z_scope.

(** ** JavaScript values used by the page *)

Module JS.

(** A JavaScript number: a binary64 value.  A finite non-zero value is kept
    as the rational it stands for, in lowest terms; the two zeros are told
    apart by their sign. *)
Inductive number : Type :=
| NaN : number
| Infinity (negative : bool) : number
| Zero (negative : bool) : number
| Fin (q : Q) : number.

(** *** Rounding to binary64 (round to nearest, ties to even) *)

(** The integer part of the binary logarithm of a positive rational. *)
Definition ilog2 (a : Q) : Z :=
  let k := Z.log2 (Qnum a) - Z.log2 (Zpos (Qden a)) in
  if Qle_bool (2 ^ k) a then k else k - 1.

(** The integer nearest to [x], the even one of two equally near. *)
Definition round_half_even (x : Q) : Z :=
  let f := Qfloor x in
  match Qcompare (x - inject_Z f) (1 # 2) with
  | Lt => f
  | Gt => f + 1
  | Eq => if Z.even f then f else f + 1
  end.

(** The binary64 value nearest to the positive rational [a], with the given
    sign: 53 significant bits, the least exponent for subnormal values, and
    [Infinity] from 2^1024 on. *)
Definition round_magnitude (negative : bool) (a : Q) : number :=
  let e := Z.max (ilog2 a - 52) (-1074) in
  let m := round_half_even (a / 2 ^ e) in
  if m =? 0 then Zero negative
  else if Qle_bool (2 ^ 1024) (inject_Z m * 2 ^ e) then Infinity negative
  else Fin (Qred (if negative then - (inject_Z m * 2 ^ e) else inject_Z m * 2 ^ e)).

(** The binary64 value of an exact result [q]; an exact zero is positive. *)
Definition round64 (q : Q) : number :=
  match Qcompare q 0 with
  | Eq => Zero false
  | Lt => round_magnitude true (Qred (- q))
  | Gt => round_magnitude false (Qred q)
  end.

(** The number an integer literal or an integral result stands for. *)
Definition of_Z (z : Z) : number := round64 (inject_Z z).

Definition is_zero (a : number) : bool :=
  match a with Zero _ => true | _ => false end.

Definition is_infinite (a : number) : bool :=
  match a with Infinity _ => true | _ => false end.

(** A number in a condition: [NaN] and the zeros count as false. *)
Definition falsy (a : number) : bool :=
  match a with NaN | Zero _ => true | _ => false end.

Definition Q_sign_neg (q : Q) : bool := Qnum q <? 0.

(** [a > b]: false as soon as one side is [NaN]; the two zeros are equal. *)
Definition gt (a b : number) : bool :=
  match a, b with
  | NaN, _ | _, NaN => false
  | Infinity na, Infinity nb => negb na && nb
  | Infinity na, _ => negb na
  | _, Infinity nb => nb
  | Zero _, Zero _ => false
  | Zero _, Fin y => Q_sign_neg y
  | Fin x, Zero _ => negb (Q_sign_neg x)
  | Fin x, Fin y => match Qcompare x y with Gt => true | _ => false end
  end.

(** [a - b] *)
Definition sub (a b : number) : number :=
  match a, b with
  | NaN, _ | _, NaN => NaN
  | Infinity na, Infinity nb => if Bool.eqb na nb then NaN else Infinity na
  | Infinity na, _ => Infinity na
  | _, Infinity nb => Infinity (negb nb)
  | Zero sa, Zero sb => Zero (sa && negb sb)
  | Zero _, Fin y => Fin (Qred (- y))
  | Fin x, Zero _ => Fin x
  | Fin x, Fin y => round64 (x - y)
  end.

(** [a * b] *)
Definition mul (a b : number) : number :=
  match a, b with
  | NaN, _ | _, NaN => NaN
  | Infinity na, Infinity nb => Infinity (xorb na nb)
  | Infinity _, Zero _ | Zero _, Infinity _ => NaN
  | Infinity na, Fin y => Infinity (xorb na (Q_sign_neg y))
  | Fin x, Infinity nb => Infinity (xorb (Q_sign_neg x) nb)
  | Zero sa, Zero sb => Zero (xorb sa sb)
  | Zero sa, Fin y => Zero (xorb sa (Q_sign_neg y))
  | Fin x, Zero sb => Zero (xorb (Q_sign_neg x) sb)
  | Fin x, Fin y => round64 (x * y)
  end.

(** [a / b] *)
Definition div (a b : number) : number :=
  match a, b with
  | NaN, _ | _, NaN => NaN
  | Infinity _, Infinity _ => NaN
  | Infinity na, Zero sb => Infinity (xorb na sb)
  | Infinity na, Fin y => Infinity (xorb na (Q_sign_neg y))
  | Zero sa, Infinity nb => Zero (xorb sa nb)
  | Fin x, Infinity nb => Zero (xorb (Q_sign_neg x) nb)
  | Zero _, Zero _ => NaN
  | Zero sa, Fin y => Zero (xorb sa (Q_sign_neg y))
  | Fin x, Zero sb => Infinity (xorb (Q_sign_neg x) sb)
  | Fin x, Fin y => round64 (x / y)
  end.

(** [Math.ceil]: a value in (-1, 0) goes to the negative zero. *)
Definition Math_ceil (a : number) : number :=
  match a with
  | Fin x => let c := Qceiling x in if c =? 0 then Zero true else Fin (inject_Z c)
  | _ => a
  end.

(** *** [parseInt(string)] with no radix argument (ECMAScript 19.2.5) *)

(** Strings are sequences of bytes holding UTF-8 text.  The white space
    and line terminators that [parseInt] skips are: TAB, LF, VT, FF, CR and
    SPACE (one byte each); U+00A0 (two bytes); U+1680, U+2000 to U+200A,
    U+2028, U+2029, U+202F, U+205F, U+3000 and U+FEFF (three bytes
    each). *)
Definition is_white_space (c : ascii) : bool :=
  let n := nat_of_ascii c in
  ((9 <=? n) && (n <=? 13))%nat || (n =? 32)%nat.

Definition is_white_space2 (c1 c2 : ascii) : bool :=
  ((nat_of_ascii c1 =? 194) && (nat_of_ascii c2 =? 160))%nat.

Definition is_white_space3 (c1 c2 c3 : ascii) : bool :=
  let n1 := nat_of_ascii c1 in
  let n2 := nat_of_ascii c2 in
  let n3 := nat_of_ascii c3 in
  ((n1 =? 225) && (n2 =? 154) && (n3 =? 128)
   || (n1 =? 226) && (n2 =? 128)
      && ((128 <=? n3) && (n3 <=? 138) || (n3 =? 168) || (n3 =? 169) || (n3 =? 175))
   || (n1 =? 226) && (n2 =? 129) && (n3 =? 159)
   || (n1 =? 227) && (n2 =? 128) && (n3 =? 128)
   || (n1 =? 239) && (n2 =? 187) && (n3 =? 191))%nat.

Fixpoint trim_start (s : string) : string :=
  match s with
  | String c1 s1 =>
      if is_white_space c1 then trim_start s1
      else
        match s1 with
        | String c2 s2 =>
            if is_white_space2 c1 c2 then trim_start s2
            else
              match s2 with
              | String c3 s3 =>
                  if is_white_space3 c1 c2 c3 then trim_start s3 else s
              | EmptyString => s
              end
        | EmptyString => s
        end
  | EmptyString => s
  end.

(** The value of a character as a digit, letters standing for 10..35. *)
Definition digit_value (c : ascii) : option Z :=
  let n := Z.of_nat (nat_of_ascii c) in
  if (48 <=? n) && (n <=? 57) then Some (n - 48)
  else if (97 <=? n) && (n <=? 122) then Some (n - 87)
  else if (65 <=? n) && (n <=? 90) then Some (n - 55)
  else None.

(** The longest prefix of [s] made of digits of radix [R], as digits. *)
Fixpoint radix_digits (R : Z) (s : string) : list Z :=
  match s with
  | String c s' =>
      match digit_value c with
      | Some d => if d <? R then d :: radix_digits R s' else []
      | None => []
      end
  | EmptyString => []
  end.

Definition math_int (R : Z) (ds : list Z) : Z :=
  fold_left (fun acc d => acc * R + d) ds 0.

Definition strip_sign (s : string) : bool * string :=
  match s with
  | String "-" s' => (true, s')
  | String "+" s' => (false, s')
  | _ => (false, s)
  end.

Definition strip_hex_prefix (s : string) : Z * string :=
  match s with
  | String "0" (String "x" s') | String "0" (String "X" s') => (16, s')
  | _ => (10, s)
  end.

(** The digits are read as an exact integer, which is then rounded to
    binary64; a zero keeps the sign written before it. *)
Definition parseInt (input : string) : number :=
  let '(negative, s1) := strip_sign (trim_start input) in
  let '(R, s2) := strip_hex_prefix s1 in
  match radix_digits R s2 with
  | [] => NaN
  | ds =>
      let n := math_int R ds in
      if n =? 0 then Zero negative
      else round64 (inject_Z (if negative then - n else n))
  end.

(** *** [String.prototype.split] with a one-character separator *)

(** [split_from sep acc s]: [acc] holds the characters of the piece being
    read. *)
Fixpoint split_from (sep : ascii) (acc : string) (s : string) : list string :=
  match s with
  | EmptyString => [acc]
  | String c s' =>
      if Ascii.eqb c sep then acc :: split_from sep EmptyString s'
      else split_from sep (acc ++ String c EmptyString) s'
  end.

Definition split (s : string) (sep : ascii) : list string :=
  split_from sep EmptyString s.

(** Truthiness of a string: every string but the empty one. *)
Definition truthy (s : string) : bool :=
  match s with EmptyString => false | _ => true end.

End JS.

Export JS.

Local Open Scope string_scope.
Local Open Scope Z_scope.

(** ** The two tables the page reads *)

(** The schema module [@/db/schema] is not part of the sources at hand; the
    two row types below follow the data model of the specification and the
    columns the page names. *)

(** A stored value: a number or a text. *)
Inductive Cell : Type :=
| CInt (z : Z)
| CStr (s : string).

Module clinics.
(** Modelled from the spec: the [clinics] table of [@/db/schema].  A
    clinic is the tenant entity, with an id and an owning-user
    reference. *)
Record row : Type := { id : Z; userId : string }.
End clinics.

Module bookings.
(** Modelled from the spec: the [bookings] table of [@/db/schema].  A
    booking belongs to one clinic and has a last name, an email, a type
    (one of a fixed enumeration, stored by name), a creation timestamp
    (milliseconds since the epoch) and further fields the page never
    names, reached through [other]. *)
Record row : Type := {
  id : Z;
  clinicId : Z;
  lastName : string;
  email : string;
  type : string;
  createdAt : Z;
  other : string -> Cell
}.
End bookings.

Abbreviation Clinic := clinics.row.
Abbreviation Booking := bookings.row.

(** The columns of the bookings table, as the properties of the table
    object [bookings]. *)
Inductive Column : Type :=
| bookings_id
| bookings_clinicId
| bookings_lastName
| bookings_email
| bookings_type
| bookings_createdAt
| bookings_other (name : string).

Definition cell (c : Column) (b : Booking) : Cell :=
  match c with
  | bookings_id => CInt (bookings.id b)
  | bookings_clinicId => CInt (bookings.clinicId b)
  | bookings_lastName => CStr (bookings.lastName b)
  | bookings_email => CStr (bookings.email b)
  | bookings_type => CStr (bookings.type b)
  | bookings_createdAt => CInt (bookings.createdAt b)
  | bookings_other name => bookings.other b name
  end.

(** Order of cells, as [ORDER BY] sees it: integers by value, strings
    character by character (binary collation). *)
Definition cell_compare (x y : Cell) : comparison :=
  match x, y with
  | CInt a, CInt b => Z.compare a b
  | CStr s, CStr t => OrdersEx.String_as_OT.compare s t
  | CInt _, CStr _ => Lt
  | CStr _, CInt _ => Gt
  end.

Definition cell_leb (x y : Cell) : bool :=
  match cell_compare x y with Gt => false | _ => true end.

(** Equality of cells, as [=] and [IN] see it. *)
Definition cell_eqb (x y : Cell) : bool :=
  match x, y with
  | CInt a, CInt b => a =? b
  | CStr s, CStr t => String.eqb s t
  | _, _ => false
  end.

(** ** The query builder *)

Module Drizzle.

(** A JavaScript [Date]: its time value, absent for an Invalid Date. *)
Record Date : Type := { time_value : option Z }.

(** A value bound into a statement. *)
Inductive Param : Type :=
| PInt (z : Z)
| PStr (s : string)
| PDate (d : Date).

(** What the driver sends for a parameter; an Invalid Date cannot be
    serialised ([toISOString] throws). *)
Definition to_driver (p : Param) : option Cell :=
  match p with
  | PInt z => Some (CInt z)
  | PStr s => Some (CStr s)
  | PDate d => CInt <$> time_value d
  end.

(** Conditions, named after the operators the page imports. *)
Inductive SQL : Type :=
| eq (c : Column) (v : Param)
| gte (c : Column) (v : Param)
| lte (c : Column) (v : Param)
| like (c : Column) (pattern : string)
| inArray (c : Column) (vs : list Param)
| sql_and (cs : list SQL).

(** [and(...)]: undefined conditions are dropped. *)
Definition and_ (conditions : list (option SQL)) : option SQL :=
  match omap (fun c => c) conditions with
  | [] => None
  | [c] => Some c
  | cs => Some (sql_and cs)
  end.

(** An order term: [asc(c)] and [desc(c)] for a column [c]; [asc_value]
    and [desc_value] stand for [asc(v)] and [desc(v)] applied to a value
    that is not a column. *)
Inductive Order : Type :=
| asc (c : Column)
| desc (c : Column)
| asc_value
| desc_value.

(** *** The [LIKE] operator *)

Inductive like_token : Type :=
| any_run            (* % *)
| any_char           (* _ *)
| literal (c : ascii).

(** The backslash is the escape character: it makes the next character
    literal, and stands for itself at the end of the pattern. *)
Fixpoint like_tokens (pattern : string) : list like_token :=
  match pattern with
  | EmptyString => []
  | String c p =>
      if Ascii.eqb c "%" then any_run :: like_tokens p
      else if Ascii.eqb c "_" then any_char :: like_tokens p
      else if Ascii.eqb c "\" then
        match p with
        | String c' p' => literal c' :: like_tokens p'
        | EmptyString => [literal c]
        end
      else literal c :: like_tokens p
  end.

Fixpoint like_match (ts : list like_token) (s : string) {struct ts} : bool :=
  match ts with
  | [] => match s with EmptyString => true | _ => false end
  | any_run :: ts' =>
      (fix from (s : string) : bool :=
         like_match ts' s ||
         match s with
         | EmptyString => false
         | String _ s' => from s'
         end) s
  | any_char :: ts' =>
      match s with
      | EmptyString => false
      | String _ s' => like_match ts' s'
      end
  | literal c :: ts' =>
      match s with
      | EmptyString => false
      | String c' s' => Ascii.eqb c c' && like_match ts' s'
      end
  end.

Definition sql_like (s pattern : string) : bool :=
  like_match (like_tokens pattern) s.

(** *** Meaning of a condition on a row *)

Definition cmp_param (test : Cell -> Cell -> bool) (x : Cell) (v : Param) : bool :=
  match to_driver v with
  | Some y => test x y
  | None => false
  end.

Fixpoint holds (w : SQL) (b : Booking) : bool :=
  match w with
  | eq c v => cmp_param cell_eqb (cell c b) v
  | gte c v => cmp_param (fun x y => cell_leb y x) (cell c b) v
  | lte c v => cmp_param cell_leb (cell c b) v
  | like c pattern =>
      match cell c b with
      | CStr s => sql_like s pattern
      | CInt _ => false
      end
  | inArray c vs => existsb (cmp_param cell_eqb (cell c b)) vs
  | sql_and cs => forallb (fun w' => holds w' b) cs
  end.

(** A statement can be sent only if all its parameters serialise. *)
Fixpoint bindable (w : SQL) : bool :=
  match w with
  | eq _ v | gte _ v | lte _ v => bool_decide (is_Some (to_driver v))
  | like _ _ => true
  | inArray _ vs => forallb (fun v => bool_decide (is_Some (to_driver v))) vs
  | sql_and cs => forallb bindable cs
  end.

(** The columns a condition mentions. *)
Fixpoint columns_of (w : SQL) : list Column :=
  match w with
  | eq c _ | gte c _ | lte c _ | like c _ | inArray c _ => [c]
  | sql_and cs => flat_map columns_of cs
  end.

End Drizzle.

(** ** Running a statement against the rows of [bookings] *)

Module Database.
Import Drizzle.

(** [.where(w)]: no condition keeps every row. *)
Definition matches (w : option SQL) (b : Booking) : bool :=
  match w with
  | Some c => holds c b
  | None => true
  end.

Definition sendable (w : option SQL) : bool :=
  match w with
  | Some c => bindable c
  | None => true
  end.

(** The order an [ORDER BY] term asks for; a term that is not a column asks
    for nothing: every arrangement of the rows is in that order. *)
Definition ordered_by (o : Order) : relation Booking :=
  fun a b =>
    match o with
    | asc c => cell_leb (cell c a) (cell c b) = true
    | desc c => cell_leb (cell c b) (cell c a) = true
    | asc_value | desc_value => True
    end.

#[global] Instance ordered_by_dec o a b : Decision (ordered_by o a b).
Proof. destruct o; unfold ordered_by; apply _. Defined.

(** A number as a count of rows, when it is a positive integer that
    binary64 holds exactly together with its neighbours (at most 2^53). *)
Definition natural (n : number) : option nat :=
  match n with
  | Fin q =>
      if (Qden q =? 1)%positive && (0 <? Qnum q) && (Qnum q <=? 2 ^ 53)
      then Some (Z.to_nat (Qnum q)) else None
  | _ => None
  end.

(** A bound on rows: a number of rows, or none. *)
Definition Bound : Type := option nat.

(** The rows from position [offset] on, at most [limit] of them. *)
Definition window (limit offset : Bound) (rows : list Booking) : list Booking :=
  let rest := drop (default 0%nat offset) rows in
  match limit with
  | Some l => take l rest
  | None => rest
  end.

(** What is left to the database: what it makes of a LIMIT or OFFSET value
    that reaches it and is not a positive integer up to 2^53 (a negative
    number, a fraction, a larger number, an infinity) -- it rejects the
    statement ([None]) or reads the value as some number of rows --,
    whether it accepts an OFFSET clause without a LIMIT clause, and whether
    it accepts an ORDER BY term that is a value and not a column. *)
Record Engine : Type := {
  bound_of : number -> option nat;
  offset_without_limit : bool;
  orders_by_value : bool
}.

Section Engine.

Variable engine : Engine.

(** The select builder writes [limit ? sql`limit ${limit}` : undefined],
    and the same for the offset: a falsy value ([NaN], a zero) leaves the
    clause out. *)
Definition clause_bound (n : number) : option Bound :=
  if falsy n then Some None
  else
    match natural n with
    | Some k => Some (Some k)
    | None => Some <$> bound_of engine n
    end.

Definition window_accepted (limit offset : Bound) : bool :=
  match limit, offset with
  | None, Some _ => offset_without_limit engine
  | _, _ => true
  end.

Definition order_accepted (o : Order) : bool :=
  match o with
  | asc _ | desc _ => true
  | asc_value | desc_value => orders_by_value engine
  end.

(** [select().from(bookings).limit(l).offset(k).where(w).orderBy(o)]:
    the matching rows, in an arrangement that has the order asked for, cut
    to the window.  [None] stands for a rejected statement. *)
Definition select_from (rows : list Booking) (w : option SQL) (o : Order)
    (limit offset : number) : option (list Booking) :=
  if sendable w && order_accepted o then
    match clause_bound limit, clause_bound offset with
    | Some l, Some k =>
        if window_accepted l k
        then Some (window l k (merge_sort (ordered_by o) (List.filter (matches w) rows)))
        else None
    | _, _ => None
    end
  else None.

End Engine.

(** One row of the count statement's result. *)
Record count_row : Type := { count : number }.

(** [select({ count: sql`count(id)` }).from(bookings).where(w)] *)
Definition select_count_from (rows : list Booking) (w : option SQL)
    : option (list count_row) :=
  if sendable w then
    Some [ {| count := of_Z (Z.of_nat (length (List.filter (matches w) rows))) |} ]
  else None.

End Database.

(** ** The page *)

(** A query-string value: [string | string[] | undefined]. *)
Inductive QueryValue : Type :=
| undefined
| str (s : string)
| strs (ss : list string).

(** [typeof v === "string" ? k(v) : otherwise] *)
Definition if_string {A} (v : QueryValue) (k : string -> A) (otherwise : A) : A :=
  match v with
  | str s => k s
  | _ => otherwise
  end.

Module searchParams.
(** The keys the page destructures from [searchParams]. *)
Record t : Type := {
  page : QueryValue;
  per_page : QueryValue;
  sort : QueryValue;
  from : QueryValue;
  to : QueryValue;
  lastName : QueryValue;
  type : QueryValue;
  date : QueryValue;
  time : QueryValue;
  slot : QueryValue;
  email : QueryValue
}.
End searchParams.

Module user.
(** The signed-in user, as far as the page looks at it. *)
Record t : Type := { id : string }.
End user.

(** What the page's collaborators hold while one request is served: the
    session, and one snapshot of the two tables. *)
Record World : Type := {
  session : option user.t;
  clinics_rows : list Clinic;
  bookings_rows : list Booking
}.

(** The awaited calls, in the order they are made. *)
Inductive Event : Type :=
| called_currentUser
| queried_clinics (userId : string)
| selected_bookings (w : option Drizzle.SQL) (o : Drizzle.Order) (limit offset : number)
| counted_bookings (w : option Drizzle.SQL).

(** Ways the page ends without rendering: [redirect] and [notFound] throw,
    and so does a rejected statement. *)
Inductive Thrown : Type :=
| redirect_to (url : string)
| not_found
| data_store_error.

(** The props handed to [BookingsTableShell]. *)
Record Rendered : Type := {
  data : list Booking;
  pageCount : number;
  clinicId : Z
}.

(** Computations of the page: they read the world, log their calls and may
    throw. *)
Definition M (A : Type) : Type := World -> list Event -> (Thrown + A) * list Event.

Definition ret {A} (a : A) : M A := fun _ log => (inr a, log).

Definition bind {A B} (m : M A) (k : A -> M B) : M B :=
  fun w log =>
    match m w log with
    | (inl e, log') => (inl e, log')
    | (inr a, log') => k a w log'
    end.

Definition throw {A} (e : Thrown) : M A := fun _ log => (inl e, log).

Definition call {A} (ev : Event) (answer : World -> Thrown + A) : M A :=
  fun w log => (answer w, (log ++ [ev])%list).

Notation "x <- m ;; k" := (bind m (fun x => k))
  (at level 100, m at next level, right associativity).

Definition run {A} (m : M A) (w : World) : (Thrown + A) * list Event := m w [].

Definition outcome {A} (m : M A) (w : World) : Thrown + A := fst (run m w).
Definition calls {A} (m : M A) (w : World) : list Event := snd (run m w).

Definition of_option {A} (o : option A) : Thrown + A :=
  match o with
  | Some a => inr a
  | None => inl data_store_error
  end.

(** What [bookings[name]] is, for a name the table object has. *)
Inductive Property : Type :=
| is_column (c : Column)
| no_column.

(** The properties every object inherits from [Object.prototype]. *)
Definition Object_prototype_properties : list string :=
  [ "constructor"; "hasOwnProperty"; "isPrototypeOf"; "propertyIsEnumerable";
    "toLocaleString"; "toString"; "valueOf"; "__proto__";
    "__defineGetter__"; "__defineSetter__"; "__lookupGetter__";
    "__lookupSetter__" ].

Section Page.
Import Drizzle Database.

(** The further columns of the bookings table, beyond the six the page
    names. *)
Variable other_columns : list string.

(** Further names for which [name in bookings] holds though they are no
    columns: what the query builder itself stores on a table object. *)
Variable other_properties : list string.

(** What is left to the database (see [Database.Engine]). *)
Variable engine : Database.Engine.

(** [new Date(s)]: the time value of the parsed string, if it parses.
    Which strings parse is left to the JavaScript engine. *)
Variable Date_parse : string -> option Z.

Definition new_Date (s : string) : Date := {| time_value := Date_parse s |}.

(** [bookings[name]], defined exactly when [name in bookings]: a column of
    the table, or a property that is no column.  [in] also finds what the
    object inherits from [Object.prototype]. *)
Definition bookings_property (name : string) : option Property :=
  if String.eqb name "id" then Some (is_column bookings_id)
  else if String.eqb name "clinicId" then Some (is_column bookings_clinicId)
  else if String.eqb name "lastName" then Some (is_column bookings_lastName)
  else if String.eqb name "email" then Some (is_column bookings_email)
  else if String.eqb name "type" then Some (is_column bookings_type)
  else if String.eqb name "createdAt" then Some (is_column bookings_createdAt)
  else if existsb (String.eqb name) other_columns
  then Some (is_column (bookings_other name))
  else if existsb (String.eqb name) Object_prototype_properties
          || existsb (String.eqb name) other_properties
  then Some no_column
  else None.

(** *** The awaited collaborators *)

Definition currentUser : M (option user.t) :=
  call called_currentUser (fun w => inr (session w)).

Definition redirect {A} (url : string) : M A := throw (redirect_to url).
Definition notFound {A} : M A := throw not_found.

(** [db.query.clinics.findFirst({ where: eq(clinics.userId, uid) })] *)
Definition clinics_findFirst (uid : string) : M (option Clinic) :=
  call (queried_clinics uid)
    (fun w => inr (List.find (fun c => String.eqb (clinics.userId c) uid) (clinics_rows w))).

Definition tx_select (w : option SQL) (o : Order) (limit offset : number)
    : M (list Booking) :=
  call (selected_bookings w o limit offset)
    (fun world => of_option (select_from engine (bookings_rows world) w o limit offset)).

Definition tx_count (w : option SQL) : M (list count_row) :=
  call (counted_bookings w)
    (fun world => of_option (select_count_from (bookings_rows world) w)).

(** *** Query-string interpretation *)

Definition limit_of (per_page : QueryValue) : number :=
  if_string per_page parseInt (of_Z 10).

Definition offset_of (page : QueryValue) (limit : number) : number :=
  if_string page
    (fun page =>
       if gt (parseInt page) (of_Z 0)
       then mul (sub (parseInt page) (of_Z 1)) limit
       else of_Z 0)
    (of_Z 0).

(** [const [column, order] = typeof sort === "string" ? sort.split(".") : []] *)
Definition column_order_of (sort : QueryValue) : option string * option string :=
  let parts := if_string sort (fun sort => split sort ".") [] in
  (parts !! 0%nat, parts !! 1%nat).

Definition types_of (type : QueryValue) : list string :=
  if_string type (fun type => split type ".") [].

Definition day_of (v : QueryValue) : option Date :=
  if_string v (fun s => Some (new_Date s)) None.

(** The [where] argument of the page-slice statement. *)
Definition items_where (sp : searchParams.t) (clinic : Clinic) : option SQL :=
  let types := types_of (searchParams.type sp) in
  let fromDay := day_of (searchParams.from sp) in
  let toDay := day_of (searchParams.to sp) in
  and_ [
    Some (eq bookings_clinicId (PInt (clinics.id clinic)));
    if_string (searchParams.lastName sp)
      (fun lastName => Some (like bookings_lastName ("%" ++ lastName ++ "%")%string))
      None;
    if (0 <? length types)%nat
    then Some (inArray bookings_type (PStr <$> types)) else None;
    if_string (searchParams.email sp)
      (fun email => Some (like bookings_email ("%" ++ email ++ "%")%string))
      None;
    match fromDay, toDay with
    | Some fromDay, Some toDay =>
        and_ [ Some (gte bookings_createdAt (PDate fromDay));
               Some (lte bookings_createdAt (PDate toDay)) ]
    | _, _ => None
    end
  ].

(** [asc(bookings[column])] and [desc(bookings[column])] *)
Definition asc_of (p : Property) : Order :=
  match p with
  | is_column c => asc c
  | no_column => asc_value
  end.

Definition desc_of (p : Property) : Order :=
  match p with
  | is_column c => desc c
  | no_column => desc_value
  end.

(** The [orderBy] argument of the page-slice statement. *)
Definition items_orderBy (column order : option string) : Order :=
  match column with
  | Some column =>
      if truthy column then
        match bookings_property column with
        | Some property =>
            match order with
            | Some order =>
                if String.eqb order "asc" then asc_of property else desc_of property
            | None => desc_of property
            end
        | None => desc bookings_createdAt
        end
      else desc bookings_createdAt
  | None => desc bookings_createdAt
  end.

(** The [where] argument of the count statement, written out a second
    time in the source. *)
Definition count_where (sp : searchParams.t) (clinic : Clinic) : option SQL :=
  let types := types_of (searchParams.type sp) in
  let fromDay := day_of (searchParams.from sp) in
  let toDay := day_of (searchParams.to sp) in
  and_ [
    Some (eq bookings_clinicId (PInt (clinics.id clinic)));
    if_string (searchParams.lastName sp)
      (fun lastName => Some (like bookings_lastName ("%" ++ lastName ++ "%")%string))
      None;
    if (0 <? length types)%nat
    then Some (inArray bookings_type (PStr <$> types)) else None;
    if_string (searchParams.email sp)
      (fun email => Some (like bookings_email ("%" ++ email ++ "%")%string))
      None;
    match fromDay, toDay with
    | Some fromDay, Some toDay =>
        and_ [ Some (gte bookings_createdAt (PDate fromDay));
               Some (lte bookings_createdAt (PDate toDay)) ]
    | _, _ => None
    end
  ].

(** [Math.ceil(count / limit)] *)
Definition pageCount_of (count limit : number) : number :=
  Math_ceil (div count limit).

(** [res[0]?.count ?? 0] *)
Definition first_count (res : list count_row) : number :=
  match res !! 0%nat with
  | Some r => count r
  | None => of_Z 0
  end.

(** The body of [db.transaction]. *)
Definition transaction (sp : searchParams.t) (clinic : Clinic)
    (limit offset : number) (column order : option string)
    : M (list Booking * number) :=
  items <- tx_select (items_where sp clinic) (items_orderBy column order) limit offset ;;
  count <- bind (tx_count (count_where sp clinic)) (fun res => ret (first_count res)) ;;
  ret (items, count).

Definition ClinicBookingsPage (sp : searchParams.t) : M Rendered :=
  user <- currentUser ;;
  match user with
  | None => redirect "/logowanie"
  | Some user =>
      clinic <- clinics_findFirst (user.id user) ;;
      match clinic with
      | None => notFound
      | Some clinic =>
          let limit := limit_of (searchParams.per_page sp) in
          let offset := offset_of (searchParams.page sp) limit in
          let '(column, order) := column_order_of (searchParams.sort sp) in
          result <- transaction sp clinic limit offset column order ;;
          let '(items, count) := result in
          let pageCount := pageCount_of count limit in
          ret {| data := items; pageCount := pageCount; clinicId := clinics.id clinic |}
      end
  end.

End Page.

(** ** Vocabulary of the properties *)

(** The clinic [clinics_findFirst] answers with for user [u]. *)
Definition clinic_of (w : World) (u : user.t) : option Clinic :=
  List.find (fun c => String.eqb (clinics.userId c) (user.id u)) (clinics_rows w).

(** The rows a statement with condition [cond] ranges over. *)
Definition selected (cond : option Drizzle.SQL) (w : World) : list Booking :=
  List.filter (Database.matches cond) (bookings_rows w).

(** The columns the condition of a statement mentions. *)
Definition where_columns (cond : option Drizzle.SQL) : list Column :=
  match cond with
  | Some c => Drizzle.columns_of c
  | None => []
  end.

Definition is_string (v : QueryValue) : bool := if_string v (fun _ => true) false.

(** A string that [parseInt] turns into [NaN]. *)
Definition non_numeric (v : QueryValue) : bool :=
  if_string v (fun s => match parseInt s with NaN => true | _ => false end) false.

(** [s] begins with [x]. *)
Fixpoint starts_with (s x : string) {struct x} : bool :=
  match x, s with
  | EmptyString, _ => true
  | String c x', String d s' => Ascii.eqb c d && starts_with s' x'
  | String _ _, EmptyString => false
  end.

(** [x] occurs in [s] as a run of consecutive characters. *)
Fixpoint includes (s x : string) : bool :=
  starts_with s x ||
  match s with
  | String _ s' => includes s' x
  | EmptyString => false
  end.

(** The characters [LIKE] gives a meaning to. *)
Definition like_special (c : ascii) : bool :=
  Ascii.eqb c "%" || Ascii.eqb c "_" || Ascii.eqb c "\".

(** A text without such characters. *)
Fixpoint plain (x : string) : bool :=
  match x with
  | EmptyString => true
  | String c x' => negb (like_special c) && plain x'
  end.


(** The pattern that matches exactly the text [x]. *)
Fixpoint literals (x : string) : list Drizzle.like_token :=
  match x with
  | EmptyString => []
  | String c x' => Drizzle.literal c :: literals x'
  end.

(** The creation-date range, applied when both ends are given. *)
Definition in_date_range (Date_parse : string -> option Z)
    (sp : searchParams.t) (b : Booking) : bool :=
  match searchParams.from sp, searchParams.to sp with
  | str f, str t =>
      match Date_parse f, Date_parse t with
      | Some f, Some t => (f <=? bookings.createdAt b) && (bookings.createdAt b <=? t)
      | _, _ => false
      end
  | _, _ => true
  end.

Definition of_type (sp : searchParams.t) (b : Booking) : bool :=
  if_string (searchParams.type sp)
    (fun type => existsb (String.eqb (bookings.type b)) (split type "."))
    true.


(** The same conjunction with the two text conditions as the [LIKE]
    patterns the page builds. *)
Definition like_filter (Date_parse : string -> option Z)
    (sp : searchParams.t) (clinic : Clinic) (b : Booking) : bool :=
  (bookings.clinicId b =? clinics.id clinic)
  && if_string (searchParams.lastName sp)
       (fun x => Drizzle.sql_like (bookings.lastName b) ("%" ++ x ++ "%")%string) true
  && of_type sp b
  && if_string (searchParams.email sp)
       (fun x => Drizzle.sql_like (bookings.email b) ("%" ++ x ++ "%")%string) true
  && in_date_range Date_parse sp b.

(** The request with its two date parameters removed. *)
Definition without_dates (sp : searchParams.t) : searchParams.t :=
  {| searchParams.page := searchParams.page sp;
     searchParams.per_page := searchParams.per_page sp;
     searchParams.sort := searchParams.sort sp;
     searchParams.from := undefined;
     searchParams.to := undefined;
     searchParams.lastName := searchParams.lastName sp;
     searchParams.type := searchParams.type sp;
     searchParams.date := searchParams.date sp;
     searchParams.time := searchParams.time sp;
     searchParams.slot := searchParams.slot sp;
     searchParams.email := searchParams.email sp |}.



(** ** A small clinic database, for the examples *)

(** A database that takes positive integers only as LIMIT and OFFSET,
    wants a LIMIT with every OFFSET and refuses to order by a value. *)
Definition demo_engine : Database.Engine :=
  {| Database.bound_of := fun _ => None;
     Database.offset_without_limit := false;
     Database.orders_by_value := false |}.


Definition booking (i c : Z) (l e t : string) (cr : Z) : Booking :=
  {| bookings.id := i; bookings.clinicId := c; bookings.lastName := l;
     bookings.email := e; bookings.type := t; bookings.createdAt := cr;
     bookings.other := fun _ => CInt 0 |}.

Definition demo_world : World :=
  {| session := Some {| user.id := "user_1" |};
     clinics_rows :=
       [ {| clinics.id := 8; clinics.userId := "user_2" |};
         {| clinics.id := 7; clinics.userId := "user_1" |} ];
     bookings_rows :=
       [ booking 1 7 "Kowalski" "anna@clinic.pl" "checkup" 100;
         booking 2 7 "Nowak" "jan@poczta.pl" "consultation" 200;
         booking 3 8 "Kowal" "ewa@clinic.pl" "checkup" 300;
         booking 4 7 "Adamski" "ola@clinic.pl" "checkup" 50 ] |}.

(** The same database seen by a signed-in user who owns no clinic. *)
Definition demo_world_no_clinic : World :=
  {| session := Some {| user.id := "user_3" |};
     clinics_rows := clinics_rows demo_world;
     bookings_rows := bookings_rows demo_world |}.

Definition no_params : searchParams.t :=
  {| searchParams.page := undefined; searchParams.per_page := undefined;
     searchParams.sort := undefined; searchParams.from := undefined;
     searchParams.to := undefined; searchParams.lastName := undefined;
     searchParams.type := undefined; searchParams.date := undefined;
     searchParams.time := undefined; searchParams.slot := undefined;
     searchParams.email := undefined |}.

Definition with_lastName (v : string) (sp : searchParams.t) : searchParams.t :=
  {| searchParams.page := searchParams.page sp;
     searchParams.per_page := searchParams.per_page sp;
     searchParams.sort := searchParams.sort sp;
     searchParams.from := searchParams.from sp;
     searchParams.to := searchParams.to sp;
     searchParams.lastName := str v;
     searchParams.type := searchParams.type sp;
     searchParams.date := searchParams.date sp;
     searchParams.time := searchParams.time sp;
     searchParams.slot := searchParams.slot sp;
     searchParams.email := searchParams.email sp |}.

Definition with_sort (v : string) (sp : searchParams.t) : searchParams.t :=
  {| searchParams.page := searchParams.page sp;
     searchParams.per_page := searchParams.per_page sp;
     searchParams.sort := str v;
     searchParams.from := searchParams.from sp;
     searchParams.to := searchParams.to sp;
     searchParams.lastName := searchParams.lastName sp;
     searchParams.type := searchParams.type sp;
     searchParams.date := searchParams.date sp;
     searchParams.time := searchParams.time sp;
     searchParams.slot := searchParams.slot sp;
     searchParams.email := searchParams.email sp |}.

Definition with_from (v : string) (sp : searchParams.t) : searchParams.t :=
  {| searchParams.page := searchParams.page sp;
     searchParams.per_page := searchParams.per_page sp;
     searchParams.sort := searchParams.sort sp;
     searchParams.from := str v;
     searchParams.to := searchParams.to sp;
     searchParams.lastName := searchParams.lastName sp;
     searchParams.type := searchParams.type sp;
     searchParams.date := searchParams.date sp;
     searchParams.time := searchParams.time sp;
     searchParams.slot := searchParams.slot sp;
     searchParams.email := searchParams.email sp |}.

(** What the page shows for [demo_world] and no query parameters: the three
    bookings of clinic 7, newest first, on one page. *)
Definition demo_rendered : Rendered :=
  {| data :=
       [ booking 2 7 "Nowak" "jan@poczta.pl" "consultation" 200;
         booking 1 7 "Kowalski" "anna@clinic.pl" "checkup" 100;
         booking 4 7 "Adamski" "ola@clinic.pl" "checkup" 50 ];
     pageCount := of_Z 1;
     clinicId := 7 |}.

(** The days from 1 January 1970 to a day of the Gregorian calendar. *)
Definition days_from_civil (y m d : Z) : Z :=
  let y' := if m <=? 2 then y - 1 else y in
  let era := y' / 400 in
  let yoe := y' - era * 400 in
  let doy := (153 * (if 2 <? m then m - 3 else m + 9) + 2) / 5 + d - 1 in
  let doe := yoe * 365 + yoe / 4 - yoe / 100 + doy in
  era * 146097 + doe - 719468.

(** The length of month [m] of year [y]. *)
Definition days_in_month (y m : Z) : Z :=
  if m =? 2 then
    if (y mod 4 =? 0) && (negb (y mod 100 =? 0) || (y mod 400 =? 0)) then 29 else 28
  else if (m =? 4) || (m =? 6) || (m =? 9) || (m =? 11) then 30
  else 31.

(** The value of a string of decimal digits. *)
Fixpoint decimal_from (acc : Z) (s : string) : option Z :=
  match s with
  | EmptyString => Some acc
  | String c s' =>
      let n := Z.of_nat (nat_of_ascii c) in
      if (48 <=? n) && (n <=? 57) then decimal_from (acc * 10 + (n - 48)) s'
      else None
  end.

(** A [Date.parse] for the examples: that of an engine which reads the
    date-only form [YYYY-MM-DD] of the ECMAScript date-time string format,
    as midnight UTC of that calendar day, and no other string.  (What
    strings outside that format mean is left to the engine by ECMAScript;
    the examples use none.) *)
Definition demo_Date_parse (s : string) : option Z :=
  if negb (Nat.eqb (String.length s) 10) then None
  else if negb (String.eqb (substring 4 1 s) "-" && String.eqb (substring 7 1 s) "-")
  then None
  else
    match decimal_from 0 (substring 0 4 s),
          decimal_from 0 (substring 5 2 s),
          decimal_from 0 (substring 8 2 s) with
    | Some y, Some m, Some d =>
        if (1 <=? m) && (m <=? 12) && (1 <=? d) && (d <=? days_in_month y m)
        then Some (days_from_civil y m d * 86400000)
        else None
    | _, _, _ => None
    end.

(** ** Further vocabulary: variations of a request *)

Definition with_page (v : string) (sp : searchParams.t) : searchParams.t :=
  {| searchParams.page := str v;
     searchParams.per_page := searchParams.per_page sp;
     searchParams.sort := searchParams.sort sp;
     searchParams.from := searchParams.from sp;
     searchParams.to := searchParams.to sp;
     searchParams.lastName := searchParams.lastName sp;
     searchParams.type := searchParams.type sp;
     searchParams.date := searchParams.date sp;
     searchParams.time := searchParams.time sp;
     searchParams.slot := searchParams.slot sp;
     searchParams.email := searchParams.email sp |}.

Definition with_per_page (v : string) (sp : searchParams.t) : searchParams.t :=
  {| searchParams.page := searchParams.page sp;
     searchParams.per_page := str v;
     searchParams.sort := searchParams.sort sp;
     searchParams.from := searchParams.from sp;
     searchParams.to := searchParams.to sp;
     searchParams.lastName := searchParams.lastName sp;
     searchParams.type := searchParams.type sp;
     searchParams.date := searchParams.date sp;
     searchParams.time := searchParams.time sp;
     searchParams.slot := searchParams.slot sp;
     searchParams.email := searchParams.email sp |}.

Definition with_type (v : string) (sp : searchParams.t) : searchParams.t :=
  {| searchParams.page := searchParams.page sp;
     searchParams.per_page := searchParams.per_page sp;
     searchParams.sort := searchParams.sort sp;
     searchParams.from := searchParams.from sp;
     searchParams.to := searchParams.to sp;
     searchParams.lastName := searchParams.lastName sp;
     searchParams.type := str v;
     searchParams.date := searchParams.date sp;
     searchParams.time := searchParams.time sp;
     searchParams.slot := searchParams.slot sp;
     searchParams.email := searchParams.email sp |}.

Definition with_to (v : string) (sp : searchParams.t) : searchParams.t :=
  {| searchParams.page := searchParams.page sp;
     searchParams.per_page := searchParams.per_page sp;
     searchParams.sort := searchParams.sort sp;
     searchParams.from := searchParams.from sp;
     searchParams.to := str v;
     searchParams.lastName := searchParams.lastName sp;
     searchParams.type := searchParams.type sp;
     searchParams.date := searchParams.date sp;
     searchParams.time := searchParams.time sp;
     searchParams.slot := searchParams.slot sp;
     searchParams.email := searchParams.email sp |}.

Definition with_email (v : string) (sp : searchParams.t) : searchParams.t :=
  {| searchParams.page := searchParams.page sp;
     searchParams.per_page := searchParams.per_page sp;
     searchParams.sort := searchParams.sort sp;
     searchParams.from := searchParams.from sp;
     searchParams.to := searchParams.to sp;
     searchParams.lastName := searchParams.lastName sp;
     searchParams.type := searchParams.type sp;
     searchParams.date := searchParams.date sp;
     searchParams.time := searchParams.time sp;
     searchParams.slot := searchParams.slot sp;
     searchParams.email := str v |}.

(** The two pages of the demo clinic's bookings in pages of two, newest
    first. *)
Definition demo_page_1_of_2 : Rendered :=
  {| data :=
       [ booking 2 7 "Nowak" "jan@poczta.pl" "consultation" 200;
         booking 1 7 "Kowalski" "anna@clinic.pl" "checkup" 100 ];
     pageCount := of_Z 2;
     clinicId := 7 |}.

Definition demo_page_2_of_2 : Rendered :=
  {| data := [ booking 4 7 "Adamski" "ola@clinic.pl" "checkup" 50 ];
     pageCount := of_Z 2;
     clinicId := 7 |}.

(** The clinic of user_1 in the demo database. *)
Definition demo_clinic : Clinic := {| clinics.id := 7; clinics.userId := "user_1" |}.

(** A value as the page's [typeof v === "string"] tests see it. *)
Definition only_string (v : QueryValue) : QueryValue :=
  if_string v str undefined.

(** The request reduced to what the page reads: the string values of the
    eight keys it uses. *)
Definition effective (sp : searchParams.t) : searchParams.t :=
  {| searchParams.page := only_string (searchParams.page sp);
     searchParams.per_page := only_string (searchParams.per_page sp);
     searchParams.sort := only_string (searchParams.sort sp);
     searchParams.from := only_string (searchParams.from sp);
     searchParams.to := only_string (searchParams.to sp);
     searchParams.lastName := only_string (searchParams.lastName sp);
     searchParams.type := only_string (searchParams.type sp);
     searchParams.date := undefined;
     searchParams.time := undefined;
     searchParams.slot := undefined;
     searchParams.email := only_string (searchParams.email sp) |}.

(** The request with its filter parameters removed. *)
Definition no_filters (sp : searchParams.t) : searchParams.t :=
  {| searchParams.page := searchParams.page sp;
     searchParams.per_page := searchParams.per_page sp;
     searchParams.sort := searchParams.sort sp;
     searchParams.from := undefined;
     searchParams.to := undefined;
     searchParams.lastName := undefined;
     searchParams.type := undefined;
     searchParams.date := searchParams.date sp;
     searchParams.time := searchParams.time sp;
     searchParams.slot := searchParams.slot sp;
     searchParams.email := undefined |}.

(** The request with its two text filters removed. *)
Definition without_texts (sp : searchParams.t) : searchParams.t :=
  {| searchParams.page := searchParams.page sp;
     searchParams.per_page := searchParams.per_page sp;
     searchParams.sort := searchParams.sort sp;
     searchParams.from := searchParams.from sp;
     searchParams.to := searchParams.to sp;
     searchParams.lastName := undefined;
     searchParams.type := searchParams.type sp;
     searchParams.date := searchParams.date sp;
     searchParams.time := searchParams.time sp;
     searchParams.slot := searchParams.slot sp;
     searchParams.email := undefined |}.

(** A text without the separator of the sort and type tokens. *)
Fixpoint dot_free (s : string) : bool :=
  match s with
  | EmptyString => true
  | String c s' => negb (Ascii.eqb c ".") && dot_free s'
  end.

(** The pieces [ts] written as one dot-separated token. *)
Fixpoint join_dots (ts : list string) : string :=
  match ts with
  | [] => EmptyString
  | [t] => t
  | t :: ts' => (t ++ "." ++ join_dots ts')%string
  end.

(** The demo database seen by a visitor who is not signed in. *)
Definition demo_world_signed_out : World :=
  {| session := None;
     clinics_rows := clinics_rows demo_world;
     bookings_rows := bookings_rows demo_world |}.

(** * Properties *)

(** ** Rounding to binary64 *)

Section Rounding.

Local Open Scope Q_scope.

Lemma pow2_pos (k : Z) : 0 < 2 ^ k.
Proof. apply Qpower_0_lt. reflexivity. Qed.

Lemma pow2_add (a b : Z) : 2 ^ (a + b) == 2 ^ a * 2 ^ b.
Proof. apply Qpower_plus. discriminate. Qed.

Lemma pow2_Z (k : Z) : (0 <= k)%Z -> inject_Z (2 ^ k) == 2 ^ k.
Proof. intros H. now rewrite (Zpower_Qpower 2 k H). Qed.

Lemma pow2_lt_inv (a b : Z) : 2 ^ a < 2 ^ b -> (a < b)%Z.
Proof. intros H. apply (Qpower_lt_compat_l_inv 2); [exact H|reflexivity]. Qed.

Lemma Q_as_fraction (a : Q) : a * inject_Z (Zpos (Qden a)) == inject_Z (Qnum a).
Proof. destruct a as [n d]. unfold Qeq, Qmult, inject_Z. simpl. lia. Qed.

(** [ilog2 a] is at most the binary logarithm of [a]. *)
Lemma ilog2_le (a : Q) : 0 < a -> 2 ^ ilog2 a <= a.
Proof.
  intros Ha. unfold ilog2.
  set (n := Qnum a). set (d := Zpos (Qden a)).
  destruct (Qle_bool (2 ^ (Z.log2 n - Z.log2 d)) a) eqn:E.
  - now apply Qle_bool_iff.
  - assert (Hn : (0 < n)%Z).
    { unfold n. destruct a as [an ad]. unfold Qlt in Ha. simpl in *. lia. }
    assert (Hd : (0 < d)%Z) by (unfold d; lia).
    destruct (Z.log2_spec n Hn) as [Ln _].
    destruct (Z.log2_spec d Hd) as [_ Ld].
    pose proof (Z.log2_nonneg n) as Nn. pose proof (Z.log2_nonneg d) as Nd.
    assert (Qn : 2 ^ Z.log2 n <= inject_Z n).
    { rewrite <- pow2_Z by exact Nn. rewrite <- Zle_Qle. exact Ln. }
    assert (Qd : inject_Z d <= 2 ^ (Z.log2 d + 1)).
    { rewrite <- pow2_Z by lia. rewrite <- Zle_Qle.
      replace (Z.log2 d + 1)%Z with (Z.succ (Z.log2 d)) by lia. lia. }
    assert (P : 2 ^ (Z.log2 n - Z.log2 d - 1) * 2 ^ (Z.log2 d + 1) == 2 ^ Z.log2 n).
    { rewrite <- pow2_add.
      replace (Z.log2 n - Z.log2 d - 1 + (Z.log2 d + 1))%Z with (Z.log2 n) by lia.
      reflexivity. }
    pose proof (Q_as_fraction a) as F. fold n d in F.
    pose proof (pow2_pos (Z.log2 n - Z.log2 d - 1)) as Px.
    assert (Dpos : 0 < inject_Z d) by (rewrite <- (Zlt_Qlt 0); exact Hd).
    set (x := 2 ^ (Z.log2 n - Z.log2 d - 1)) in *.
    set (y := 2 ^ (Z.log2 d + 1)) in *. set (z := 2 ^ Z.log2 n) in *.
    set (D := inject_Z d) in *. set (N := inject_Z n) in *.
    nra.
Qed.

#[local] Instance round_half_even_comp : Proper (Qeq ==> Logic.eq) round_half_even.
Proof.
  intros x y E. unfold round_half_even. rewrite (Qfloor_comp _ _ E).
  now rewrite E.
Qed.

Lemma round_half_even_Z (z : Z) : round_half_even (inject_Z z) = z.
Proof.
  unfold round_half_even. rewrite Qfloor_Z.
  destruct (Qcompare_spec (inject_Z z - inject_Z z) (1 # 2)) as [H|H|H];
    [lra|reflexivity|lra].
Qed.

Lemma round_half_even_le (x : Q) (N : Z) :
  x <= inject_Z N -> (round_half_even x <= N)%Z.
Proof.
  intros H. unfold round_half_even.
  pose proof (Qfloor_le x) as F.
  assert (G : (Qfloor x <= N)%Z) by (rewrite Zle_Qle; lra).
  destruct (Qcompare_spec (x - inject_Z (Qfloor x)) (1 # 2)) as [E|E|E].
  - assert ((Qfloor x < N)%Z) by (rewrite Zlt_Qlt; lra).
    destruct (Z.even (Qfloor x)); lia.
  - exact G.
  - assert ((Qfloor x < N)%Z) by (rewrite Zlt_Qlt; lra). lia.
Qed.

Lemma round_half_even_gt (x : Q) (K : Z) :
  inject_Z K + (1 # 2) < x -> (K + 1 <= round_half_even x)%Z.
Proof.
  intros H. unfold round_half_even.
  pose proof (Qlt_floor x) as F. rewrite inject_Z_plus in F.
  assert (G : (K <= Qfloor x)%Z).
  { assert ((K < Qfloor x + 1)%Z) by (rewrite Zlt_Qlt; rewrite inject_Z_plus; lra). lia. }
  destruct (Qcompare_spec (x - inject_Z (Qfloor x)) (1 # 2)) as [E|E|E].
  - assert ((K < Qfloor x)%Z) by (rewrite Zlt_Qlt; lra).
    destruct (Z.even (Qfloor x)); lia.
  - assert ((K < Qfloor x)%Z) by (rewrite Zlt_Qlt; lra). lia.
  - lia.
Qed.

Lemma pow2_opp (e : Z) : 2 ^ e * 2 ^ (- e) == 1.
Proof. rewrite <- pow2_add. now replace (e + - e)%Z with 0%Z by lia. Qed.

Lemma div_pow2 (a : Q) (e : Z) : a / 2 ^ e == a * 2 ^ (- e).
Proof. unfold Qdiv. now rewrite Qpower_opp. Qed.

Lemma pow2_53_1024 : 2 ^ 53 < 2 ^ 1024.
Proof. apply Qpower_lt_compat_l; [lia|reflexivity]. Qed.

(** A positive value strictly between two consecutive integers below 2^53,
    far enough from the lower one, rounds to a value in the same gap. *)
Lemma round_between (a : Q) (k : Z) :
  (0 <= k)%Z -> (k + 1 < 2 ^ 53)%Z ->
  inject_Z k < a -> a <= inject_Z (k + 1) ->
  2 ^ (Z.max (ilog2 a - 52) (-1074) - 1) < a - inject_Z k ->
  exists v, round_magnitude false a = Fin v /\ inject_Z k < v /\ v <= inject_Z (k + 1).
Proof.
  intros Hk Hk1 Hlo Hhi Hgap.
  assert (Ha : 0 < a). { assert (0 <= inject_Z k) by (rewrite <- (Zle_Qle 0); lia). lra. }
  assert (Hlt53 : a < 2 ^ 53).
  { rewrite <- pow2_Z by lia.
    assert (inject_Z (k + 1) < inject_Z (2 ^ 53)) by (rewrite <- Zlt_Qlt; lia). lra. }
  assert (Hlog : (ilog2 a <= 52)%Z).
  { pose proof (ilog2_le a Ha) as L.
    assert ((ilog2 a < 53)%Z) by (apply pow2_lt_inv; lra). lia. }
  unfold round_magnitude.
  set (e := Z.max (ilog2 a - 52) (-1074)) in *.
  assert (He : (e <= 0)%Z) by lia.
  set (S := (2 ^ (- e))%Z).
  assert (HS : inject_Z S == 2 ^ (- e)) by (apply pow2_Z; lia).
  pose proof (pow2_pos e) as Pe. pose proof (pow2_pos (- e)) as Pme.
  pose proof (pow2_opp e) as Po.
  assert (Hhalf : 2 ^ (e - 1) * 2 ^ (- e) == 1 # 2).
  { rewrite <- pow2_add. now replace (e - 1 + - e)%Z with (-1)%Z by lia. }
  assert (Hup : (round_half_even (a / 2 ^ e) <= (k + 1) * S)%Z).
  { apply round_half_even_le. rewrite div_pow2, inject_Z_mult, HS.
    set (s := 2 ^ (- e)) in *. nra. }
  assert (Hdown : (k * S + 1 <= round_half_even (a / 2 ^ e))%Z).
  { apply round_half_even_gt. rewrite div_pow2, inject_Z_mult, HS.
    set (s := 2 ^ (- e)) in *. set (h := 2 ^ (e - 1)) in *. nra. }
  set (m := round_half_even (a / 2 ^ e)) in *.
  assert (Spos : (0 < S)%Z) by (unfold S; apply Z.pow_pos_nonneg; lia).
  assert (Hm : (0 < m)%Z) by nia.
  assert (Qup : inject_Z m * 2 ^ e <= inject_Z (k + 1)).
  { assert (inject_Z m <= inject_Z ((k + 1) * S)) by (rewrite <- Zle_Qle; exact Hup).
    rewrite inject_Z_mult, HS in H.
    assert (G : inject_Z m * 2 ^ e <= inject_Z (k + 1) * 2 ^ (- e) * 2 ^ e).
    { apply Qmult_le_compat_r; [exact H|lra]. }
    assert (G' : inject_Z (k + 1) * 2 ^ (- e) * 2 ^ e
                 == inject_Z (k + 1) * (2 ^ e * 2 ^ (- e))) by ring.
    rewrite G', Po in G. lra. }
  assert (Qdown : inject_Z k < inject_Z m * 2 ^ e).
  { assert (inject_Z (k * S + 1) <= inject_Z m) by (rewrite <- Zle_Qle; exact Hdown).
    rewrite inject_Z_plus, inject_Z_mult, HS in H.
    assert (G : (inject_Z k * 2 ^ (- e) + inject_Z 1) * 2 ^ e <= inject_Z m * 2 ^ e).
    { apply Qmult_le_compat_r; [exact H|lra]. }
    assert (G' : (inject_Z k * 2 ^ (- e) + inject_Z 1) * 2 ^ e
                 == inject_Z k * (2 ^ e * 2 ^ (- e)) + 2 ^ e) by (unfold inject_Z at 2; ring).
    rewrite G', Po in G. lra. }
  destruct (Z.eqb_spec m 0) as [->|_]; [lia|].
  destruct (Qle_bool (2 ^ 1024) (inject_Z m * 2 ^ e)) eqn:O.
  - apply Qle_bool_iff in O. pose proof pow2_53_1024.
    assert (inject_Z (k + 1) < inject_Z (2 ^ 53)) by (rewrite <- Zlt_Qlt; lia).
    rewrite pow2_Z in H0 by lia. lra.
  - eexists. split; [reflexivity|]. rewrite (Qred_correct (inject_Z m * 2 ^ e)).
    split; assumption.
Qed.

(** ** Integers that binary64 holds exactly *)

Lemma Qred_inject_Z (z : Z) : Qred (inject_Z z) = inject_Z z.
Proof. apply Qcanon.Qred_iff. simpl. apply Z.gcd_1_r. Qed.

Lemma round_magnitude_Z (negative : bool) (z : Z) :
  (0 < z <= 2 ^ 53)%Z ->
  round_magnitude negative (inject_Z z)
  = Fin (inject_Z (if negative then - z else z)).
Proof.
  intros [Hz Hz53].
  assert (Ha : 0 < inject_Z z) by (rewrite <- (Zlt_Qlt 0); exact Hz).
  assert (Hle53 : inject_Z z <= 2 ^ 53).
  { rewrite <- pow2_Z by lia. rewrite <- Zle_Qle. exact Hz53. }
  pose proof (ilog2_le _ Ha) as L.
  assert (Hlog : (ilog2 (inject_Z z) <= 53)%Z).
  { assert ((ilog2 (inject_Z z) < 54)%Z); [|lia].
    apply pow2_lt_inv.
    assert (2 ^ 53 < 2 ^ 54) by (apply Qpower_lt_compat_l; [lia|reflexivity]). lra. }
  unfold round_magnitude.
  set (e := Z.max (ilog2 (inject_Z z) - 52) (-1074)) in *.
  assert (HN : exists N : Z, inject_Z z / 2 ^ e == inject_Z N
                             /\ inject_Z N * 2 ^ e == inject_Z z).
  { destruct (Z.leb_spec e 0) as [He|He].
    - exists (z * 2 ^ (- e))%Z.
      rewrite inject_Z_mult, (pow2_Z (- e)) by lia.
      split; [apply div_pow2|].
      rewrite <- Qmult_assoc, (Qmult_comm (2 ^ (- e))), pow2_opp. ring.
    - assert (e = 1%Z) by lia.
      assert (Hi : ilog2 (inject_Z z) = 53%Z) by lia.
      rewrite Hi in L. rewrite <- pow2_Z in L by lia. rewrite <- Zle_Qle in L.
      assert (z = (2 ^ 53)%Z) by lia. subst z. rewrite H.
      exists (2 ^ 52)%Z. split; reflexivity. }
  destruct HN as (N & HN1 & HN2).
  rewrite (round_half_even_comp _ _ HN1), round_half_even_Z.
  assert (HNpos : (0 < N)%Z).
  { rewrite (Zlt_Qlt 0). pose proof (pow2_pos e) as Pe.
    assert (0 < inject_Z N * 2 ^ e) by (rewrite HN2; exact Ha).
    destruct (Qlt_le_dec 0 (inject_Z N)) as [G|G]; [exact G|].
    exfalso. set (E := 2 ^ e) in *. nra. }
  destruct (Z.eqb_spec N 0) as [->|_]; [lia|].
  destruct (Qle_bool (2 ^ 1024) (inject_Z N * 2 ^ e)) eqn:O.
  - apply Qle_bool_iff in O. rewrite HN2 in O. pose proof pow2_53_1024. lra.
  - f_equal. rewrite <- (Qred_inject_Z (if negative then - z else z)%Z).
    apply Qred_complete.
    destruct negative; [rewrite inject_Z_opp|]; now rewrite HN2.
Qed.

Lemma of_Z_safe (z : Z) :
  (z <> 0)%Z -> (- 2 ^ 53 <= z <= 2 ^ 53)%Z -> of_Z z = Fin (inject_Z z).
Proof.
  intros Hz Hb. unfold of_Z, round64.
  destruct (Qcompare_spec (inject_Z z) 0) as [E|E|E].
  - exfalso. apply Hz. apply (inject_Z_injective z 0). exact E.
  - assert ((z < 0)%Z) by (rewrite (Zlt_Qlt z 0); exact E).
    rewrite <- inject_Z_opp, Qred_inject_Z, round_magnitude_Z by lia.
    do 2 f_equal. lia.
  - assert ((0 < z)%Z) by (rewrite (Zlt_Qlt 0 z); exact E).
    rewrite Qred_inject_Z, round_magnitude_Z by lia. reflexivity.
Qed.

Lemma of_Z_0 : of_Z 0 = Zero false.
Proof. reflexivity. Qed.

#[local] Instance round64_comp : Proper (Qeq ==> Logic.eq) round64.
Proof.
  intros x y E. unfold round64. rewrite E.
  destruct (y ?= 0); [reflexivity| |].
  - f_equal. apply Qred_complete. now rewrite E.
  - f_equal. now apply Qred_complete.
Qed.

Lemma gt_of_Z_0 (a : Z) :
  (- 2 ^ 53 <= a <= 2 ^ 53)%Z -> gt (of_Z a) (of_Z 0) = (0 <? a)%Z.
Proof.
  intros Hb. rewrite of_Z_0. destruct (Z.eq_dec a 0%Z) as [->|Ha]; [reflexivity|].
  rewrite of_Z_safe by assumption. unfold gt, Q_sign_neg, inject_Z. simpl.
  destruct (Z.ltb_spec a 0%Z), (Z.ltb_spec 0%Z a); simpl; try reflexivity; lia.
Qed.

Lemma sub_of_Z_1 (p : Z) :
  (1 <= p <= 2 ^ 53)%Z -> sub (of_Z p) (of_Z 1) = of_Z (p - 1).
Proof.
  intros Hp. rewrite (of_Z_safe p), (of_Z_safe 1) by lia. unfold sub.
  unfold of_Z. apply round64_comp.
  unfold Z.sub. rewrite inject_Z_plus, inject_Z_opp. reflexivity.
Qed.

Lemma mul_of_Z (a b : Z) :
  (0 <= a <= 2 ^ 53)%Z -> (0 < b <= 2 ^ 53)%Z ->
  mul (of_Z a) (of_Z b) = of_Z (a * b).
Proof.
  intros Ha Hb. rewrite (of_Z_safe b) by lia.
  destruct (Z.eq_dec a 0%Z) as [->|Hne].
  - rewrite of_Z_0. simpl. unfold Q_sign_neg, inject_Z. simpl.
    destruct (Z.ltb_spec b 0%Z); [lia|reflexivity].
  - rewrite (of_Z_safe a) by lia. unfold mul, of_Z. apply round64_comp.
    now rewrite inject_Z_mult.
Qed.

Lemma Qceiling_between (v : Q) (k : Z) :
  inject_Z k < v -> v <= inject_Z (k + 1) -> Qceiling v = (k + 1)%Z.
Proof.
  intros Hlo Hhi.
  pose proof (Qle_ceiling v) as A. pose proof (Qceiling_lt v) as B.
  assert ((k < Qceiling v)%Z) by (rewrite Zlt_Qlt; lra).
  assert ((Qceiling v - 1 < k + 1)%Z) by (rewrite Zlt_Qlt; lra).
  lia.
Qed.

Lemma of_Z_fin_bound (l : Z) :
  (0 < l)%Z -> of_Z l = Fin (inject_Z l) -> inject_Z l < 2 ^ 1024.
Proof.
  intros Hl. unfold of_Z, round64.
  destruct (Qcompare_spec (inject_Z l) 0) as [E|E|E].
  - discriminate.
  - exfalso. assert ((l < 0)%Z) by (rewrite (Zlt_Qlt l 0); exact E). lia.
  - rewrite Qred_inject_Z. unfold round_magnitude.
    destruct (_ =? _)%Z; [discriminate|].
    match goal with |- context [Qle_bool ?x ?y] => destruct (Qle_bool x y) eqn:O end;
      [discriminate|].
    intros [= H].
    assert (G : ~ 2 ^ 1024 <= inject_Z l).
    { intros C. rewrite <- H, Qred_correct in C. apply Qle_bool_iff in C. congruence. }
    lra.
Qed.

Lemma ceiling_bounds (c l : Z) :
  (0 < l)%Z -> ((- ((- c) / l) - 1) * l < c <= - ((- c) / l) * l)%Z.
Proof.
  intros Hl.
  pose proof (Z.div_mod (- c) l ltac:(lia)) as E.
  pose proof (Z.mod_pos_bound (- c) l Hl) as B.
  nia.
Qed.

(** The page count of a count below 2^53 and a positive integral page size
    is their quotient rounded up: the division rounds to binary64, never
    far enough to reach the integer below. *)
Lemma ceil_div_of_Z (c l : Z) :
  (0 <= c < 2 ^ 53)%Z -> (0 < l)%Z -> of_Z l = Fin (inject_Z l) ->
  Math_ceil (div (of_Z c) (of_Z l)) = of_Z (- ((- c) / l)).
Proof.
  intros Hc Hl Hrep.
  pose proof (of_Z_fin_bound l Hl Hrep) as Hl1024.
  rewrite Hrep.
  destruct (Z.eq_dec c 0%Z) as [->|Hc0].
  - rewrite of_Z_0. simpl. unfold Q_sign_neg. simpl.
    destruct (Z.ltb_spec l 0%Z); [lia|]. reflexivity.
  - rewrite (of_Z_safe c) by lia. unfold div.
    pose proof (ceiling_bounds c l Hl) as B.
    set (k := (- ((- c) / l) - 1)%Z) in *.
    replace (- (- c / l))%Z with (k + 1)%Z in * by (unfold k; lia).
    assert (Hk : (0 <= k)%Z) by nia.
    assert (Hk1 : (k + 1 < 2 ^ 53)%Z) by nia.
    assert (Lpos : 0 < inject_Z l) by (rewrite <- (Zlt_Qlt 0); exact Hl).
    assert (Cpos : 0 < inject_Z c) by (rewrite <- (Zlt_Qlt 0); lia).
    assert (Qpos : 0 < inject_Z c / inject_Z l).
    { apply Qlt_shift_div_l; [exact Lpos|lra]. }
    unfold round64.
    destruct (Qcompare_spec (inject_Z c / inject_Z l) 0) as [E|E|E]; [lra|lra|].
    set (a := Qred (inject_Z c / inject_Z l)).
    assert (Ea : a * inject_Z l == inject_Z c).
    { unfold a. rewrite Qred_correct. field. lra. }
    assert (Hlo : inject_Z k * inject_Z l < inject_Z c).
    { rewrite <- inject_Z_mult, <- Zlt_Qlt. lia. }
    assert (Hhi : inject_Z c <= inject_Z (k + 1) * inject_Z l).
    { rewrite <- inject_Z_mult, <- Zle_Qle. lia. }
    assert (Hgap1 : 1 <= (a - inject_Z k) * inject_Z l).
    { assert (inject_Z (k * l + 1) <= inject_Z c) by (rewrite <- Zle_Qle; lia).
      rewrite inject_Z_plus, inject_Z_mult in H.
      assert ((a - inject_Z k) * inject_Z l == inject_Z c - inject_Z k * inject_Z l)
        by (rewrite <- Ea; ring).
      rewrite H0. unfold inject_Z at 3 in H. lra. }
    assert (Alo : inject_Z k < a).
    { set (L := inject_Z l) in *. set (K := inject_Z k) in *. nra. }
    assert (Ahi : a <= inject_Z (k + 1)).
    { set (L := inject_Z l) in *. set (K := inject_Z (k + 1)) in *. nra. }
    assert (Apos : 0 < a).
    { assert (0 <= inject_Z k) by (rewrite <- (Zle_Qle 0); exact Hk). lra. }
    assert (C53 : inject_Z c < 2 ^ 53).
    { rewrite <- pow2_Z by lia. rewrite <- Zlt_Qlt. lia. }
    assert (Hgap : 2 ^ (Z.max (ilog2 a - 52) (-1074) - 1) < a - inject_Z k).
    { destruct (Z.max_spec (ilog2 a - 52) (-1074)) as [[_ ->]|[_ ->]].
      - assert (P : 2 ^ (-1074 - 1) * 2 ^ 1024 < 1).
        { rewrite <- pow2_add. reflexivity. }
        pose proof (pow2_pos (-1074 - 1)) as Hh.
        set (h := 2 ^ (-1074 - 1)) in *. set (L := inject_Z l) in *.
        set (T := 2 ^ 1024) in *. set (K := inject_Z k) in *. nra.
      - pose proof (ilog2_le a Apos) as IL.
        assert (P : 2 ^ (ilog2 a - 52 - 1) * 2 ^ 53 == 2 ^ ilog2 a).
        { rewrite <- pow2_add.
          now replace (ilog2 a - 52 - 1 + 53)%Z with (ilog2 a) by lia. }
        pose proof (pow2_pos (ilog2 a - 52 - 1)) as Hh.
        set (h := 2 ^ (ilog2 a - 52 - 1)) in *. set (L := inject_Z l) in *.
        set (T := 2 ^ 53) in *. set (I := 2 ^ ilog2 a) in *.
        set (K := inject_Z k) in *. set (C := inject_Z c) in *. nra. }
    destruct (round_between a k Hk Hk1 Alo Ahi Hgap) as (v & -> & Vlo & Vhi).
    unfold Math_ceil. rewrite (Qceiling_between v k Vlo Vhi).
    destruct (Z.eqb_spec (k + 1) 0); [lia|].
    symmetry. apply of_Z_safe; lia.
Qed.

End Rounding.

(** ** Page size, offset and page count *)

Lemma round_magnitude_not_NaN (negative : bool) (a : Q) :
  round_magnitude negative a <> NaN.
Proof.
  unfold round_magnitude.
  destruct (_ =? _); [discriminate|].
  match goal with |- context [Qle_bool ?x ?y] => destruct (Qle_bool x y) end;
    discriminate.
Qed.

Lemma round64_not_NaN (q : Q) : round64 q <> NaN.
Proof.
  unfold round64. destruct (Qcompare q 0);
    [discriminate|apply round_magnitude_not_NaN|apply round_magnitude_not_NaN].
Qed.

Lemma parseInt_cases (s : string) :
  parseInt s = NaN
  \/ (exists negative, parseInt s = Zero negative)
  \/ exists z, z <> 0 /\ parseInt s = of_Z z.
Proof.
  unfold parseInt.
  destruct (strip_sign (trim_start s)) as [negative s1].
  destruct (strip_hex_prefix s1) as [R s2].
  destruct (radix_digits R s2) as [|d ds]; [now left|]. right.
  destruct (Z.eqb_spec (math_int R (d :: ds)) 0) as [E|E]; [left; eauto|].
  right. exists (if negative then - math_int R (d :: ds) else math_int R (d :: ds)).
  split; [destruct negative; lia|reflexivity].
Qed.

Lemma limit_NaN_non_numeric (per_page : QueryValue) :
  limit_of per_page = NaN <-> non_numeric per_page = true.
Proof.
  destruct per_page as [|t|ts]; simpl;
    [split; discriminate| |split; discriminate].
  destruct (parseInt t); split; congruence.
Qed.

(** When a product is [NaN]. *)
Lemma mul_NaN_iff (a b : number) :
  mul a b = NaN <->
  a = NaN \/ b = NaN
  \/ (is_zero a = true /\ is_infinite b = true)
  \/ (is_infinite a = true /\ is_zero b = true).
Proof.
  destruct a as [|na|sa|x], b as [|nb|sb|y]; simpl;
    try (split; [intros H; try discriminate H; tauto
                |intros [H|[H|[[H1 H2]|[H1 H2]]]]; congruence]).
  split; [intros H; now apply round64_not_NaN in H|].
  intros [H|[H|[[H1 H2]|[H1 H2]]]]; congruence.
Qed.

Lemma sub_1_not_NaN (a : number) : a <> NaN -> sub a (of_Z 1) <> NaN.
Proof.
  rewrite (of_Z_safe 1) by lia.
  destruct a as [|na|sa|x]; simpl; try congruence; try discriminate.
  intros _. apply round64_not_NaN.
Qed.




(** C5, as the code has it.  When [page] parses to an integer [p] with
    [1 <= p <= 2^53] and [per_page] to an integer [l] with
    [0 < l <= 2^53], the offset is the binary64 value nearest to
    [(p - 1) * l], which is [(p - 1) * l] itself when that product is at
    most 2^53; when [page] is absent or parses to a number that is not
    greater than 0, the offset is 0. *)
Theorem offset_of_page (page per_page : QueryValue) :
  (forall s t p l,
      page = str s -> per_page = str t ->
      parseInt s = of_Z p -> parseInt t = of_Z l ->
      1 <= p <= 2 ^ 53 -> 0 < l <= 2 ^ 53 ->
      offset_of page (limit_of per_page) = of_Z ((p - 1) * l)
      /\ (1 < p -> (p - 1) * l <= 2 ^ 53 ->
          offset_of page (limit_of per_page) = Fin (inject_Z ((p - 1) * l))))
  /\ (is_string page = false ->
      offset_of page (limit_of per_page) = of_Z 0)
  /\ (forall s,
      page = str s -> gt (parseInt s) (of_Z 0) = false ->
      offset_of page (limit_of per_page) = of_Z 0)
  /\ (forall s p,
      page = str s -> parseInt s = of_Z p -> - 2 ^ 53 <= p <= 0 ->
      offset_of page (limit_of per_page) = of_Z 0).
Proof.
  split; [|split; [|split]].
  - intros s t p l -> -> Hp Hl H1 H0.
    assert (E : offset_of (str s) (limit_of (str t)) = of_Z ((p - 1) * l)).
    { simpl. rewrite Hp, Hl, gt_of_Z_0 by lia.
      destruct (Z.ltb_spec 0 p); [|lia].
      rewrite sub_of_Z_1 by lia. apply mul_of_Z; lia. }
    split; [exact E|].
    intros Hp1 Hprod. rewrite E. apply of_Z_safe; nia.
  - destruct page; simpl; [reflexivity|discriminate|reflexivity].
  - intros s -> Hgt. simpl. now rewrite Hgt.
  - intros s p -> Hp Hb. simpl. rewrite Hp, gt_of_Z_0 by lia.
    destruct (Z.ltb_spec 0 p); [lia|reflexivity].
Qed.

Lemma offset_of_page_examples :
  offset_of (str "3") (limit_of (str "10")) = Fin (inject_Z 20)
  /\ offset_of undefined (limit_of (str "10")) = of_Z 0
  /\ offset_of (str "-2") (limit_of (str "10")) = of_Z 0.
Proof.
  split; [|split].
  - apply (proj2 (proj1 (offset_of_page (str "3") (str "10")) "3" "10" 3 10
                    eq_refl eq_refl eq_refl eq_refl ltac:(lia) ltac:(lia)));
      lia.
  - apply (proj1 (proj2 (offset_of_page undefined (str "10")))). reflexivity.
  - apply (proj2 (proj2 (proj2 (offset_of_page (str "-2") (str "10")))) "-2" (-2));
      solve [reflexivity | lia].
Defined.

(** C5, as stated, fails: for [page=94906268] and [per_page=94906267] the
    product [(page - 1) * per_page] is 9007199515875289, which binary64
    does not hold; the offset computed is 9007199515875288. *)
Lemma offset_rounds_above_2_53 :
  parseInt "94906268" = of_Z 94906268
  /\ parseInt "94906267" = of_Z 94906267
  /\ (94906268 - 1) * 94906267 = 9007199515875289
  /\ offset_of (str "94906268") (limit_of (str "94906267"))
     = Fin (inject_Z 9007199515875288)
  /\ offset_of (str "94906268") (limit_of (str "94906267"))
     <> Fin (inject_Z ((94906268 - 1) * 94906267)).
Proof.
  assert (E : offset_of (str "94906268") (limit_of (str "94906267"))
              = Fin (inject_Z 9007199515875288)) by (vm_compute; reflexivity).
  split; [reflexivity|]. split; [reflexivity|]. split; [reflexivity|].
  split; [exact E|]. rewrite E. intros [= H].
Qed.

(** C8, as the code has it.  A non-numeric [per_page] makes the limit
    [NaN].  The offset is [NaN] exactly when [page] is a string whose
    [parseInt] is greater than 0 and the product [(parseInt(page) - 1) *
    limit] is [NaN]: the limit is [NaN], or the product is zero times
    infinity (page 1 with an infinite limit, an infinite page with a zero
    limit).  A non-numeric [page] gives offset 0: its [NaN] fails the
    [> 0] test. *)
Theorem offset_NaN_iff (page per_page : QueryValue) :
  (non_numeric per_page = true -> limit_of per_page = NaN)
  /\ (non_numeric page = true -> offset_of page (limit_of per_page) = of_Z 0)
  /\ (offset_of page (limit_of per_page) = NaN <->
      exists s, page = str s /\ gt (parseInt s) (of_Z 0) = true /\
        (non_numeric per_page = true
         \/ (is_zero (sub (parseInt s) (of_Z 1)) = true
             /\ is_infinite (limit_of per_page) = true)
         \/ (is_infinite (sub (parseInt s) (of_Z 1)) = true
             /\ is_zero (limit_of per_page) = true)))
  /\ (forall s, page = str s -> parseInt s = of_Z 1 ->
        is_infinite (limit_of per_page) = true ->
        offset_of page (limit_of per_page) = NaN)
  /\ (forall s, page = str s -> parseInt s = Infinity false ->
        is_zero (limit_of per_page) = true ->
        offset_of page (limit_of per_page) = NaN).
Proof.
  assert (C : forall s,
             gt (parseInt s) (of_Z 0) = true ->
             (offset_of (str s) (limit_of per_page) = NaN <->
              non_numeric per_page = true
              \/ (is_zero (sub (parseInt s) (of_Z 1)) = true
                  /\ is_infinite (limit_of per_page) = true)
              \/ (is_infinite (sub (parseInt s) (of_Z 1)) = true
                  /\ is_zero (limit_of per_page) = true))).
  { intros s Hgt. simpl. rewrite Hgt, mul_NaN_iff, limit_NaN_non_numeric.
    assert (N : sub (parseInt s) (of_Z 1) <> NaN).
    { apply sub_1_not_NaN. intros E. rewrite E in Hgt. discriminate Hgt. }
    tauto. }
  split; [apply limit_NaN_non_numeric|]. split; [|split; [|split]].
  - destruct page as [|s|ss]; simpl; try discriminate.
    now destruct (parseInt s).
  - split.
    + destruct page as [|s|ss]; try (simpl; discriminate).
      destruct (gt (parseInt s) (of_Z 0)) eqn:Hgt.
      * intros H. exists s. split; [reflexivity|]. split; [exact Hgt|].
        now apply (C s Hgt).
      * simpl. rewrite Hgt. discriminate.
    + intros (s & -> & Hgt & H). now apply (C s Hgt).
  - intros s -> Hs Hinf.
    assert (Hgt : gt (parseInt s) (of_Z 0) = true) by (rewrite Hs; reflexivity).
    apply (C s Hgt). right. left. rewrite Hs. split; [reflexivity|exact Hinf].
  - intros s -> Hs Hz.
    assert (Hgt : gt (parseInt s) (of_Z 0) = true) by (rewrite Hs; reflexivity).
    apply (C s Hgt). right. right. rewrite Hs. split; [reflexivity|exact Hz].
Qed.

Lemma offset_NaN_examples :
  offset_of (str "2") (limit_of (str "abc")) = NaN
  /\ offset_of (str "abc") (limit_of (str "abc")) = of_Z 0.
Proof.
  split.
  - apply (proj2 (proj1 (proj2 (proj2 (offset_NaN_iff (str "2") (str "abc")))))).
    exists "2". split; [reflexivity|]. split; [reflexivity|]. left. reflexivity.
  - apply (proj1 (proj2 (offset_NaN_iff (str "abc") (str "abc")))). reflexivity.
Defined.

(** C8, as stated, fails: [page=abc] is a non-numeric string, and the
    offset computed for it is 0, not [NaN]. *)
Lemma non_numeric_page_offset_is_zero :
  non_numeric (str "abc") = true
  /\ offset_of (str "abc") (limit_of undefined) = of_Z 0
  /\ offset_of (str "abc") (limit_of undefined) <> NaN.
Proof. split; [reflexivity|]. split; [reflexivity|discriminate]. Qed.
(** ** The [and] combinator *)

Lemma and_matches (cs : list (option Drizzle.SQL)) (b : Booking) :
  Database.matches (Drizzle.and_ cs) b = forallb (fun c => Database.matches c b) cs.
Proof.
  assert (E : forall l, forallb (fun c => Database.matches c b) l
                        = forallb (fun c => Drizzle.holds c b) (omap (fun c => c) l)).
  { induction l as [|[c|] l IH]; simpl; [reflexivity| |assumption].
    now rewrite IH. }
  rewrite E. unfold Drizzle.and_.
  destruct (omap (fun c => c) cs) as [|c [|c' l]]; simpl; try reflexivity.
  now rewrite andb_true_r.
Qed.

Lemma and_sendable (cs : list (option Drizzle.SQL)) :
  Database.sendable (Drizzle.and_ cs) = forallb Database.sendable cs.
Proof.
  assert (E : forall l, forallb Database.sendable l
                        = forallb Drizzle.bindable (omap (fun c => c) l)).
  { induction l as [|[c|] l IH]; simpl; [reflexivity| |assumption].
    now rewrite IH. }
  rewrite E. unfold Drizzle.and_.
  destruct (omap (fun c => c) cs) as [|c [|c' l]]; simpl; try reflexivity.
  now rewrite andb_true_r.
Qed.

Lemma and_columns (cs : list (option Drizzle.SQL)) :
  where_columns (Drizzle.and_ cs) = flat_map where_columns cs.
Proof.
  assert (E : forall l, flat_map where_columns l
                        = flat_map Drizzle.columns_of (omap (fun c => c) l)).
  { induction l as [|[c|] l IH]; simpl; [reflexivity| |assumption].
    now rewrite IH. }
  rewrite E. unfold Drizzle.and_.
  destruct (omap (fun c => c) cs) as [|c [|c' l]]; simpl; try reflexivity.
  now rewrite app_nil_r.
Qed.

(** ** What a rendered page was computed from *)

Lemma window_take_drop (l k : Database.Bound) (rows : list Booking) :
  Database.window l k rows
  = take (default (length rows) l) (drop (default 0%nat k) rows).
Proof.
  unfold Database.window. destruct l as [l|]; [reflexivity|]. simpl.
  symmetry. apply take_ge. rewrite length_drop. lia.
Qed.

(** A positive integer in a [limit] or [offset] clause is taken as it is. *)
Lemma clause_bound_of_Z (engine : Database.Engine) (z : Z) :
  0 < z <= 2 ^ 53 ->
  Database.clause_bound engine (of_Z z) = Some (Some (Z.to_nat z)).
Proof.
  intros Hz. rewrite of_Z_safe by lia.
  unfold Database.clause_bound, falsy, Database.natural, inject_Z.
  cbn [Qden Qnum]. rewrite Pos.eqb_refl.
  destruct (Z.ltb_spec 0 z); [|lia]. destruct (Z.leb_spec z (2 ^ 53)); [|lia].
  reflexivity.
Qed.

(** A clause whose value is falsy is not part of the statement. *)
Lemma clause_bound_falsy (engine : Database.Engine) (n : number) :
  falsy n = true -> Database.clause_bound engine n = Some None.
Proof. intros H. unfold Database.clause_bound. now rewrite H. Qed.

Section PageFacts.

Variable other_columns : list string.
Variable other_properties : list string.
Variable engine : Database.Engine.
Variable Date_parse : string -> option Z.

Local Abbreviation Page :=
  (ClinicBookingsPage other_columns other_properties engine Date_parse).

Lemma clinic_of_owner (w : World) (u : user.t) (c : Clinic) :
  clinic_of w u = Some c -> clinics.userId c = user.id u.
Proof.
  unfold clinic_of. intros H. apply List.find_some in H as [_ H].
  now apply String.eqb_eq in H.
Qed.

Lemma clinic_of_none (w : World) (u : user.t) :
  (forall c, In c (clinics_rows w) -> clinics.userId c <> user.id u) ->
  clinic_of w u = None.
Proof.
  unfold clinic_of. induction (clinics_rows w) as [|c l IH]; intros H; simpl.
  - reflexivity.
  - destruct (String.eqb_spec (clinics.userId c) (user.id u)) as [E|_].
    + exfalso. apply (H c); [now left|exact E].
    + apply IH. intros c' Hc'. apply H. now right.
Qed.

Lemma run_no_clinic (sp : searchParams.t) (w : World) (u : user.t) :
  session w = Some u -> clinic_of w u = None ->
  run (Page sp) w =
    (inl not_found, [called_currentUser; queried_clinics (user.id u)]).
Proof.
  intros Hu Hc. unfold ClinicBookingsPage, run, bind, currentUser, call. simpl.
  rewrite Hu. unfold clinics_findFirst, call. simpl.
  unfold clinic_of in Hc. now rewrite Hc.
Qed.

(** Every rendered page comes from a signed-in owner of a clinic and from
    two accepted statements. *)
Lemma rendered_inv (sp : searchParams.t) (w : World) (r : Rendered) :
  outcome (Page sp) w = inr r ->
  exists u clinic l k,
    session w = Some u /\ clinic_of w u = Some clinic /\
    let limit := limit_of (searchParams.per_page sp) in
    let offset := offset_of (searchParams.page sp) limit in
    let co := column_order_of (searchParams.sort sp) in
    let o := items_orderBy other_columns other_properties (fst co) (snd co) in
    Database.clause_bound engine limit = Some l /\
    Database.clause_bound engine offset = Some k /\
    Database.sendable (items_where Date_parse sp clinic) = true /\
    Database.order_accepted engine o = true /\
    Database.window_accepted engine l k = true /\
    data r = Database.window l k (merge_sort (Database.ordered_by o)
               (selected (items_where Date_parse sp clinic) w)) /\
    pageCount r =
      pageCount_of
        (of_Z (Z.of_nat (length (selected (count_where Date_parse sp clinic) w))))
        limit /\
    clinicId r = clinics.id clinic /\
    calls (Page sp) w =
      [called_currentUser; queried_clinics (user.id u);
       selected_bookings (items_where Date_parse sp clinic) o limit offset;
       counted_bookings (count_where Date_parse sp clinic)].
Proof.
  unfold outcome, calls, ClinicBookingsPage, run, bind, currentUser, call.
  simpl.
  destruct (session w) as [u|] eqn:Hu; [|discriminate].
  unfold clinics_findFirst, call. simpl.
  fold (clinic_of w u).
  destruct (clinic_of w u) as [clinic|] eqn:Hc; [|discriminate].
  unfold transaction, bind, tx_select, tx_count, call, ret. simpl.
  unfold Database.select_from, Database.select_count_from.
  destruct (Database.sendable (items_where Date_parse sp clinic)) eqn:Hs1;
    [|discriminate].
  destruct (Database.order_accepted engine _) eqn:Ho; [|discriminate].
  cbn [andb].
  destruct (Database.clause_bound engine (limit_of (searchParams.per_page sp)))
    as [l|] eqn:Hl; [|discriminate].
  destruct (Database.clause_bound engine (offset_of (searchParams.page sp) _))
    as [k|] eqn:Hk; [|discriminate].
  destruct (Database.window_accepted engine l k) eqn:Hw; [|discriminate].
  simpl.
  destruct (Database.sendable (count_where Date_parse sp clinic)) eqn:Hs2;
    [|discriminate].
  simpl. intros [= <-]. exists u, clinic, l, k. simpl.
  repeat split; auto.
Qed.

(** Conversely, the page is rendered as soon as the user owns a clinic and
    the two statements are accepted. *)
Lemma rendered_when_accepted (sp : searchParams.t) (w : World) (u : user.t)
    (clinic : Clinic) (l k : Database.Bound) :
  session w = Some u -> clinic_of w u = Some clinic ->
  Database.clause_bound engine (limit_of (searchParams.per_page sp)) = Some l ->
  Database.clause_bound engine
    (offset_of (searchParams.page sp) (limit_of (searchParams.per_page sp))) = Some k ->
  Database.sendable (items_where Date_parse sp clinic) = true ->
  Database.order_accepted engine
    (items_orderBy other_columns other_properties
       (fst (column_order_of (searchParams.sort sp)))
       (snd (column_order_of (searchParams.sort sp)))) = true ->
  Database.window_accepted engine l k = true ->
  exists r, outcome (Page sp) w = inr r.
Proof.
  intros Hu Hc Hl Hk Hs Ho Hw.
  unfold outcome, ClinicBookingsPage, run, bind, currentUser, call. simpl.
  rewrite Hu. unfold clinics_findFirst, call. simpl.
  fold (clinic_of w u). rewrite Hc.
  unfold transaction, bind, tx_select, tx_count, call, ret. simpl.
  unfold Database.select_from, Database.select_count_from.
  change (count_where Date_parse sp clinic) with (items_where Date_parse sp clinic).
  unfold column_order_of in Ho. cbn [fst snd] in Ho.
  rewrite Hs, Ho, Hl, Hk, Hw. simpl. eauto.
Qed.

(** The slice is drawn from the selected rows. *)
Lemma In_slice (o : Drizzle.Order) (l k : Database.Bound) (rows : list Booking)
    (b : Booking) :
  In b (Database.window l k (merge_sort (Database.ordered_by o) rows)) -> In b rows.
Proof.
  rewrite window_take_drop, <- !list_elem_of_In. intros H.
  apply subseteq_take, subseteq_drop in H.
  now rewrite merge_sort_Permutation in H.
Qed.

Lemma items_where_tenant (sp : searchParams.t) (clinic : Clinic) (b : Booking) :
  Database.matches (items_where Date_parse sp clinic) b = true ->
  bookings.clinicId b = clinics.id clinic.
Proof.
  unfold items_where. rewrite and_matches.
  cbn [forallb Database.matches Drizzle.holds].
  intros H. apply andb_prop in H as [H _].
  cbv [Drizzle.cmp_param cell_eqb Drizzle.to_driver cell] in H.
  now apply Z.eqb_eq in H.
Qed.

Lemma selected_tenant (sp : searchParams.t) (clinic : Clinic) (w : World) (b : Booking) :
  In b (selected (items_where Date_parse sp clinic) w) ->
  In b (bookings_rows w) /\ bookings.clinicId b = clinics.id clinic.
Proof.
  unfold selected. intros H. apply List.filter_In in H as [Hin Hm].
  split; [exact Hin|]. now apply items_where_tenant in Hm.
Qed.

(** C3. A signed-in user with no clinic row gets the not-found outcome
    after the clinic lookup, with no statement on bookings issued; the page
    is not rendered. *)
Theorem no_clinic_is_not_found (sp : searchParams.t) (w : World) (u : user.t) :
  session w = Some u ->
  (forall c, In c (clinics_rows w) -> clinics.userId c <> user.id u) ->
  outcome (Page sp) w = inl not_found
  /\ calls (Page sp) w = [called_currentUser; queried_clinics (user.id u)]
  /\ forall r, outcome (Page sp) w <> inr r.
Proof.
  intros Hu Hnone.
  pose proof (run_no_clinic sp w u Hu (clinic_of_none w u Hnone)) as E.
  unfold outcome, calls. rewrite E. simpl.
  split; [reflexivity|]. split; [reflexivity|discriminate].
Qed.

(** C1. Whatever the query parameters, every row of a rendered page and
    every counted row belongs to the clinic found for the signed-in user. *)
Theorem tenant_isolation (sp : searchParams.t) (w : World) (r : Rendered) :
  outcome (Page sp) w = inr r ->
  exists u clinic,
    session w = Some u /\ clinic_of w u = Some clinic /\
    clinics.userId clinic = user.id u /\
    clinicId r = clinics.id clinic /\
    (forall b, In b (data r) ->
       In b (bookings_rows w) /\ bookings.clinicId b = clinics.id clinic) /\
    exists counted,
      counted = selected (count_where Date_parse sp clinic) w /\
      pageCount r =
        pageCount_of (of_Z (Z.of_nat (length counted)))
          (limit_of (searchParams.per_page sp)) /\
      forall b, In b counted ->
        In b (bookings_rows w) /\ bookings.clinicId b = clinics.id clinic.
Proof.
  intros H.
  destruct (rendered_inv sp w r H)
    as (u & clinic & l & k & Hu & Hc & _ & _ & _ & _ & _ & Hd & Hp & Hid & _).
  exists u, clinic.
  split; [exact Hu|]. split; [exact Hc|].
  split; [now apply (clinic_of_owner w)|]. split; [exact Hid|]. split.
  - intros b Hb. rewrite Hd in Hb. apply In_slice in Hb.
    now apply selected_tenant in Hb.
  - exists (selected (count_where Date_parse sp clinic) w).
    split; [reflexivity|]. split; [exact Hp|].
    intros b Hb. now apply selected_tenant in Hb.
Qed.

(** C7. The condition of the page-slice statement and the condition of the
    count statement are the same, for every combination of parameters; the
    count of a rendered page is the number of rows its slice is drawn
    from. *)
Theorem count_where_is_items_where (sp : searchParams.t) (clinic : Clinic) :
  count_where Date_parse sp clinic = items_where Date_parse sp clinic
  /\ forall w r,
      outcome (Page sp) w = inr r ->
      exists (rows : list Booking) (o : Drizzle.Order) (l k : nat),
        data r = take l (drop k (merge_sort (Database.ordered_by o) rows)) /\
        pageCount r =
          pageCount_of (of_Z (Z.of_nat (length rows)))
            (limit_of (searchParams.per_page sp)).
Proof.
  split; [reflexivity|].
  intros w r H.
  destruct (rendered_inv sp w r H)
    as (u & c & l & k & _ & _ & _ & _ & _ & _ & _ & Hd & Hp & _).
  cbv zeta in Hd. rewrite window_take_drop in Hd.
  eexists _, _, _, _. split; [exact Hd|exact Hp].
Qed.

(** C9. When [per_page] is not a string the page size is 10, both in the
    row statement and in the page count. *)
Theorem default_limit (sp : searchParams.t) :
  is_string (searchParams.per_page sp) = false ->
  limit_of (searchParams.per_page sp) = of_Z 10
  /\ forall w r,
      outcome (Page sp) w = inr r ->
      exists (clinic : Clinic) (o : Drizzle.Order) (k : nat) (offset : number),
        In (selected_bookings (items_where Date_parse sp clinic) o (of_Z 10) offset)
           (calls (Page sp) w) /\
        data r = take 10 (drop k (merge_sort (Database.ordered_by o)
                   (selected (items_where Date_parse sp clinic) w))) /\
        pageCount r =
          pageCount_of
            (of_Z (Z.of_nat (length (selected (count_where Date_parse sp clinic) w))))
            (of_Z 10).
Proof.
  intros Hs.
  assert (E : limit_of (searchParams.per_page sp) = of_Z 10).
  { destruct (searchParams.per_page sp); simpl in *; congruence. }
  split; [exact E|].
  intros w r H.
  destruct (rendered_inv sp w r H)
    as (u & c & l & k & _ & _ & Hl & _ & _ & _ & _ & Hd & Hp & _ & Hcalls).
  cbv zeta in Hl, Hd, Hp, Hcalls.
  rewrite E in Hl, Hp, Hcalls.
  assert (El : l = Some 10%nat).
  { rewrite (clause_bound_of_Z engine 10) in Hl by lia.
    now injection Hl as <-. }
  subst l. rewrite window_take_drop in Hd.
  eexists c, _, _, _. split; [|split; [exact Hd|exact Hp]].
  rewrite Hcalls. simpl. right. right. left. reflexivity.
Qed.

End PageFacts.

(** ** [LIKE] against [%x%] and substrings *)

Lemma starts_with_spec (s x : string) :
  starts_with s x = true <-> exists post, s = (x ++ post)%string.
Proof.
  revert s. induction x as [|c x IH]; intros s; simpl.
  - split; eauto.
  - destruct s as [|d s].
    + split; [discriminate|]. intros [post H]. discriminate H.
    + rewrite andb_true_iff, IH. split.
      * intros [Hc [post ->]]. apply Ascii.eqb_eq in Hc as ->. eauto.
      * intros [post [= -> ->]]. split; [apply Ascii.eqb_refl|eauto].
Qed.

Lemma includes_spec (s x : string) :
  includes s x = true <-> exists pre post, s = (pre ++ x ++ post)%string.
Proof.
  induction s as [|d s IH].
  - cbn [includes]. rewrite orb_false_r, starts_with_spec. split.
    + intros [post H]. exists EmptyString, post. exact H.
    + intros (pre & post & H). destruct pre; [eauto|discriminate H].
  - cbn [includes]. rewrite orb_true_iff, starts_with_spec, IH. split.
    + intros [[post H]|(pre & post & H)].
      * exists EmptyString, post. exact H.
      * exists (String d pre), post. simpl. now rewrite H.
    + intros (pre & post & H). destruct pre as [|e pre].
      * left. eauto.
      * right. simpl in H. injection H as _ H. eauto.
Qed.

Lemma like_tokens_plain (x p : string) :
  plain x = true ->
  Drizzle.like_tokens (x ++ p) = (literals x ++ Drizzle.like_tokens p)%list.
Proof.
  induction x as [|c x IH]; intros H; [reflexivity|].
  cbn [plain] in H. apply andb_prop in H as [Hc Hx].
  unfold like_special in Hc. apply negb_true_iff in Hc.
  apply orb_false_elim in Hc as [Hc H3]. apply orb_false_elim in Hc as [H1 H2].
  cbn [append Drizzle.like_tokens literals]. rewrite H1, H2, H3.
  now rewrite (IH Hx).
Qed.

Lemma like_any_run_unfold (ts : list Drizzle.like_token) (s : string) :
  Drizzle.like_match (Drizzle.any_run :: ts) s =
  Drizzle.like_match ts s ||
  match s with
  | EmptyString => false
  | String _ s' => Drizzle.like_match (Drizzle.any_run :: ts) s'
  end.
Proof. destruct s; reflexivity. Qed.

Lemma like_any_run_all (s : string) :
  Drizzle.like_match [Drizzle.any_run] s = true.
Proof.
  induction s as [|c s IH]; rewrite like_any_run_unfold; [reflexivity|].
  rewrite IH. apply orb_true_r.
Qed.

Lemma like_any_run_spec (ts : list Drizzle.like_token) (s : string) :
  Drizzle.like_match (Drizzle.any_run :: ts) s = true <->
  exists pre post, s = (pre ++ post)%string /\ Drizzle.like_match ts post = true.
Proof.
  induction s as [|c s IH]; rewrite like_any_run_unfold.
  - rewrite orb_false_r. split.
    + intros H. exists EmptyString, EmptyString. auto.
    + intros (pre & post & E & H). destruct pre; [|discriminate E].
      simpl in E. now subst post.
  - rewrite orb_true_iff, IH. split.
    + intros [H|(pre & post & -> & H)].
      * exists EmptyString, (String c s). auto.
      * exists (String c pre), post. auto.
    + intros (pre & post & E & H). destruct pre as [|e pre].
      * left. simpl in E. now subst post.
      * right. simpl in E. injection E as _ E. eauto.
Qed.

Lemma like_literals_spec (x : string) (ts : list Drizzle.like_token) (s : string) :
  Drizzle.like_match (literals x ++ ts) s = true <->
  exists post, s = (x ++ post)%string /\ Drizzle.like_match ts post = true.
Proof.
  revert s. induction x as [|c x IH]; intros s.
  - simpl. split; [eauto|]. now intros (post & -> & H).
  - cbn [literals app Drizzle.like_match]. destruct s as [|d s].
    + split; [discriminate|]. intros (post & E & _). discriminate E.
    + rewrite andb_true_iff, IH. split.
      * intros [Hc (post & -> & H)]. apply Ascii.eqb_eq in Hc as ->. eauto.
      * intros (post & [= -> ->] & H). split; [apply Ascii.eqb_refl|eauto].
Qed.

(** For a text without [%], [_] and backslash, the pattern [%x%] asks for
    [x] as a substring. *)
Lemma like_includes (s x : string) :
  plain x = true ->
  Drizzle.sql_like s ("%" ++ x ++ "%")%string = includes s x.
Proof.
  intros Hx. apply eq_true_iff_eq. rewrite includes_spec.
  unfold Drizzle.sql_like.
  change ("%" ++ x ++ "%")%string with (String "%" (x ++ "%")).
  cbn [Drizzle.like_tokens]. rewrite Ascii.eqb_refl.
  rewrite (like_tokens_plain x "%" Hx).
  change (Drizzle.like_tokens "%") with [Drizzle.any_run].
  rewrite like_any_run_spec. split.
  - intros (pre & post & -> & H).
    apply like_literals_spec in H as (post' & -> & _). eauto.
  - intros (pre & post & ->). exists pre, (x ++ post)%string.
    split; [reflexivity|]. apply like_literals_spec.
    exists post. split; [reflexivity|apply like_any_run_all].
Qed.

(** ** The filter of the two statements *)

Lemma split_from_nonempty (sep : ascii) (s acc : string) :
  (0 <? length (split_from sep acc s))%nat = true.
Proof.
  revert acc. induction s as [|c s IH]; intros acc; simpl; [reflexivity|].
  destruct (Ascii.eqb c sep); [reflexivity|apply IH].
Qed.

Lemma inArray_strings (ty : string) (types : list string) :
  existsb (Drizzle.cmp_param cell_eqb (CStr ty)) (Drizzle.PStr <$> types)
  = existsb (String.eqb ty) types.
Proof.
  induction types as [|t types IH]; [reflexivity|].
  cbn [fmap list_fmap existsb]. now rewrite <- IH.
Qed.

Section Filter.

Variable other_columns : list string.
Variable other_properties : list string.
Variable engine : Database.Engine.
Variable Date_parse : string -> option Z.

Local Abbreviation Page :=
  (ClinicBookingsPage other_columns other_properties engine Date_parse).

(** The condition built by the page means the conjunction [like_filter]. *)
Lemma items_where_like_filter (sp : searchParams.t) (clinic : Clinic) (b : Booking) :
  Database.matches (items_where Date_parse sp clinic) b
  = like_filter Date_parse sp clinic b.
Proof.
  unfold items_where, like_filter. rewrite and_matches.
  cbn [forallb]. rewrite andb_true_r, !andb_assoc.
  f_equal; [f_equal; [f_equal; [f_equal|]|]|].
  - destruct (searchParams.lastName sp); reflexivity.
  - unfold of_type, types_of.
    destruct (searchParams.type sp) as [|t|ts]; cbn [if_string]; try reflexivity.
    unfold split. rewrite split_from_nonempty.
    cbn [Database.matches Drizzle.holds cell]. apply inArray_strings.
  - destruct (searchParams.email sp); reflexivity.
  - unfold in_date_range, day_of, new_Date.
    destruct (searchParams.from sp) as [|f|fs], (searchParams.to sp) as [|t|ts];
      cbn [if_string]; try reflexivity.
    cbn. unfold Drizzle.cmp_param. cbn.
    destruct (Date_parse f) as [x|], (Date_parse t) as [y|]; cbn;
      rewrite ?andb_true_r, ?andb_false_r; reflexivity.
Qed.




End Filter.

(** ** The order of the rows *)

Lemma string_compare_Gt (s t : string) :
  String_as_OT.compare s t = Gt -> String_as_OT.compare t s = Lt.
Proof.
  intros H. destruct (String_as_OT.compare_spec s t) as [E|L|G]; try discriminate H.
  exact G.
Qed.

Lemma string_compare_trans (s t u : string) :
  String_as_OT.compare s t <> Gt -> String_as_OT.compare t u <> Gt ->
  String_as_OT.compare s u <> Gt.
Proof.
  intros Hst Htu Hsu. apply string_compare_Gt in Hsu.
  destruct (String_as_OT.compare_spec s t) as [->|L|G]; [| |now apply Hst].
  - apply Htu. destruct (String_as_OT.compare_spec t u) as [->|L'|G']; try reflexivity.
    + exfalso. eapply (StrictOrder_Irreflexive (R := String_as_OT.lt)). exact Hsu.
    + exfalso. eapply (StrictOrder_Irreflexive (R := String_as_OT.lt)).
      eapply (StrictOrder_Transitive (R := String_as_OT.lt)); [exact L'|exact Hsu].
  - apply Htu. destruct (String_as_OT.compare_spec t u) as [->|L'|G']; try reflexivity.
    + exfalso. eapply (StrictOrder_Irreflexive (R := String_as_OT.lt)).
      eapply (StrictOrder_Transitive (R := String_as_OT.lt)); [exact L|exact Hsu].
    + exfalso. eapply (StrictOrder_Irreflexive (R := String_as_OT.lt)).
      eapply (StrictOrder_Transitive (R := String_as_OT.lt)); [exact L|].
      eapply (StrictOrder_Transitive (R := String_as_OT.lt)); [exact L'|exact Hsu].
Qed.

Lemma cell_leb_total (x y : Cell) : cell_leb x y = true \/ cell_leb y x = true.
Proof.
  destruct x as [a|s], y as [b|t]; unfold cell_leb, cell_compare; auto.
  - rewrite (Z.compare_antisym a b). destruct (a ?= b); simpl; auto.
  - destruct (String_as_OT.compare s t) eqn:E; auto.
    right. now rewrite (string_compare_Gt s t E).
Qed.

Lemma cell_leb_trans (x y z : Cell) :
  cell_leb x y = true -> cell_leb y z = true -> cell_leb x z = true.
Proof.
  destruct x as [a|s], y as [b|t], z as [c|u]; unfold cell_leb, cell_compare;
    try discriminate; try reflexivity.
  - intros H1 H2.
    change ((a <=? b) = true) in H1. change ((b <=? c) = true) in H2.
    change ((a <=? c) = true). apply Z.leb_le. apply Z.leb_le in H1, H2. lia.
  - intros H1 H2.
    assert (G : String_as_OT.compare s u <> Gt).
    { apply (string_compare_trans s t u).
      - intros E. now rewrite E in H1.
      - intros E. now rewrite E in H2. }
    destruct (String_as_OT.compare s u); congruence.
Qed.

#[local] Instance ordered_by_total (o : Drizzle.Order) : Total (Database.ordered_by o).
Proof. intros a b. destruct o; try apply cell_leb_total; now left. Qed.

#[local] Instance ordered_by_trans (o : Drizzle.Order) : Transitive (Database.ordered_by o).
Proof.
  intros a b c. destruct o; unfold Database.ordered_by; try tauto.
  - apply cell_leb_trans.
  - intros H1 H2. exact (cell_leb_trans _ _ _ H2 H1).
Qed.

Lemma StronglySorted_drop {A} (R : relation A) (k : nat) (l : list A) :
  StronglySorted R l -> StronglySorted R (drop k l).
Proof.
  revert l. induction k as [|k IH]; intros l H; [exact H|].
  destruct l as [|a l]; [exact H|]. simpl. apply IH. now inversion H.
Qed.

Lemma StronglySorted_take {A} (R : relation A) (n : nat) (l : list A) :
  StronglySorted R l -> StronglySorted R (take n l).
Proof.
  revert n. induction l as [|a l IH]; intros n H.
  - destruct n; constructor.
  - destruct n as [|n]; [constructor|]. simpl. inversion H; subst.
    constructor; [now apply IH|now apply Forall_take].
Qed.


(** A window of sorted rows is sorted. *)
Lemma slice_sorted (o : Drizzle.Order) (l k : Database.Bound) (rows : list Booking) :
  StronglySorted (Database.ordered_by o)
    (Database.window l k (merge_sort (Database.ordered_by o) rows)).
Proof.
  rewrite window_take_drop.
  apply StronglySorted_take, StronglySorted_drop.
  apply StronglySorted_merge_sort; apply _.
Qed.



Section Sort.

Variable other_columns : list string.
Variable other_properties : list string.
Variable engine : Database.Engine.
Variable Date_parse : string -> option Z.

Local Abbreviation Page :=
  (ClinicBookingsPage other_columns other_properties engine Date_parse).


(** A name that [in] finds, with a direction. *)
Lemma orderBy_property (column : string) (order : option string) (p : Property) :
  truthy column = true ->
  bookings_property other_columns other_properties column = Some p ->
  items_orderBy other_columns other_properties (Some column) order
  = if match order with Some order => String.eqb order "asc" | None => false end
    then asc_of p else desc_of p.
Proof.
  intros Ht Hp. unfold items_orderBy. rewrite Ht, Hp. now destruct order.
Qed.


End Sort.

(** ** The creation-date range *)

Section DateRange.

Variable other_columns : list string.
Variable other_properties : list string.
Variable engine : Database.Engine.
Variable Date_parse : string -> option Z.

Local Abbreviation Page :=
  (ClinicBookingsPage other_columns other_properties engine Date_parse).

Lemma createdAt_in_where (sp : searchParams.t) (clinic : Clinic) :
  In bookings_createdAt (where_columns (items_where Date_parse sp clinic)) <->
  is_string (searchParams.from sp) && is_string (searchParams.to sp) = true.
Proof.
  unfold items_where. rewrite and_columns.
  destruct (searchParams.lastName sp), (searchParams.email sp),
    (0 <? length (types_of (searchParams.type sp)))%nat,
    (searchParams.from sp), (searchParams.to sp); simpl;
    (split; [intros H; repeat (destruct H as [H|H]; try discriminate H); tauto
            | intros H; try discriminate H; tauto]).
Qed.

Lemma where_without_dates (sp : searchParams.t) (clinic : Clinic) :
  is_string (searchParams.from sp) && is_string (searchParams.to sp) = false ->
  items_where Date_parse sp clinic = items_where Date_parse (without_dates sp) clinic.
Proof.
  unfold items_where.
  destruct (searchParams.from sp), (searchParams.to sp); simpl;
    intros H; try discriminate H; reflexivity.
Qed.

(** C10. The [createdAt] condition is part of the two statements exactly
    when [from] and [to] are both strings; with only one of them the
    statements, and so the whole answer, are those of the request without
    any date parameter. *)
Theorem date_range_needs_both_ends (sp : searchParams.t) (clinic : Clinic) :
  (In bookings_createdAt (where_columns (items_where Date_parse sp clinic)) <->
     is_string (searchParams.from sp) && is_string (searchParams.to sp) = true)
  /\ (In bookings_createdAt (where_columns (count_where Date_parse sp clinic)) <->
     is_string (searchParams.from sp) && is_string (searchParams.to sp) = true)
  /\ (is_string (searchParams.from sp) && is_string (searchParams.to sp) = false ->
      items_where Date_parse sp clinic
        = items_where Date_parse (without_dates sp) clinic
      /\ count_where Date_parse sp clinic
        = count_where Date_parse (without_dates sp) clinic
      /\ forall w, run (Page sp) w = run (Page (without_dates sp)) w).
Proof.
  split; [apply createdAt_in_where|]. split; [apply createdAt_in_where|].
  intros H. pose proof (where_without_dates sp) as E.
  split; [now apply E|]. split; [now apply (E clinic)|].
  intros w. unfold ClinicBookingsPage, run, bind.
  destruct (currentUser w []) as [[e|[u|]] log]; [reflexivity| |reflexivity].
  destruct (clinics_findFirst (user.id u) w log) as [[e|[c|]] log'];
    [reflexivity| |reflexivity].
  cbn [without_dates searchParams.per_page searchParams.page searchParams.sort].
  destruct (column_order_of (searchParams.sort sp)) as [column order].
  unfold transaction.
  change (count_where Date_parse sp c) with (items_where Date_parse sp c).
  change (count_where Date_parse (without_dates sp) c)
    with (items_where Date_parse (without_dates sp) c).
  rewrite <- (E c H). reflexivity.
Qed.

End DateRange.

(** ** The properties on the demo database *)

Lemma tenant_isolation_demo :
  outcome (ClinicBookingsPage [] [] demo_engine demo_Date_parse
             (with_per_page "0" no_params)) demo_world
    = inr {| data := data demo_rendered; pageCount := Infinity false; clinicId := 7 |}
  /\ forall b, In b (data demo_rendered) -> bookings.clinicId b = 7.
Proof.
  assert (H : outcome (ClinicBookingsPage [] [] demo_engine demo_Date_parse
                         (with_per_page "0" no_params)) demo_world
              = inr {| data := data demo_rendered; pageCount := Infinity false;
                       clinicId := 7 |}) by reflexivity.
  split; [exact H|].
  intros b Hb.
  destruct (tenant_isolation [] [] demo_engine demo_Date_parse _ demo_world _ H)
    as (u & clinic & _ & _ & _ & Hid & Hrows & _).
  destruct (Hrows b Hb) as [_ ->]. symmetry. exact Hid.
Defined.

Lemma no_clinic_is_not_found_demo :
  session demo_world_no_clinic = Some {| user.id := "user_3" |}
  /\ outcome (ClinicBookingsPage [] [] demo_engine demo_Date_parse no_params)
       demo_world_no_clinic
       = inl not_found.
Proof.
  split; [reflexivity|].
  apply (no_clinic_is_not_found [] [] demo_engine demo_Date_parse no_params
           demo_world_no_clinic {| user.id := "user_3" |}).
  - reflexivity.
  - intros c Hc. simpl in Hc.
    destruct Hc as [<-|[<-|[]]]; discriminate.
Defined.

Lemma default_limit_demo :
  is_string (searchParams.per_page no_params) = false
  /\ limit_of (searchParams.per_page no_params) = of_Z 10.
Proof.
  split; [reflexivity|].
  apply (default_limit [] [] demo_engine demo_Date_parse no_params). reflexivity.
Defined.

Lemma count_where_is_items_where_demo :
  exists rows o l k,
    data demo_rendered = take l (drop k (merge_sort (Database.ordered_by o) rows))
    /\ pageCount demo_rendered = pageCount_of (of_Z (Z.of_nat (length rows))) (of_Z 10).
Proof.
  apply (proj2 (count_where_is_items_where [] [] demo_engine demo_Date_parse no_params
                  {| clinics.id := 7; clinics.userId := "user_1" |}) demo_world).
  reflexivity.
Defined.

Lemma date_range_needs_both_ends_demo :
  is_string (searchParams.from (with_from "1970-01-01" no_params))
    && is_string (searchParams.to (with_from "1970-01-01" no_params)) = false
  /\ run (ClinicBookingsPage [] [] demo_engine demo_Date_parse
            (with_from "1970-01-01" no_params)) demo_world
     = run (ClinicBookingsPage [] [] demo_engine demo_Date_parse no_params) demo_world.
Proof.
  split; [reflexivity|].
  apply (proj2 (proj2 (date_range_needs_both_ends [] [] demo_engine demo_Date_parse
                         (with_from "1970-01-01" no_params)
                         {| clinics.id := 7; clinics.userId := "user_1" |}))).
  reflexivity.
Defined.





(** * Further properties of the page *)

Lemma clause_bound_nonneg (engine : Database.Engine) (z : Z) :
  0 <= z <= 2 ^ 53 ->
  exists k, Database.clause_bound engine (of_Z z) = Some k
            /\ default 0%nat k = Z.to_nat z.
Proof.
  intros Hz. destruct (Z.eq_dec z 0) as [->|Hne].
  - exists None. split; reflexivity.
  - exists (Some (Z.to_nat z)). split; [apply clause_bound_of_Z; lia|reflexivity].
Qed.

(** A product with a zero is a zero or [NaN]: as an offset it is left out
    of the statement. *)
Lemma mul_zero_l_falsy (negative : bool) (b : number) :
  falsy (mul (Zero negative) b) = true.
Proof. now destruct b. Qed.

Lemma mul_zero_r_falsy (a : number) (negative : bool) :
  falsy (mul a (Zero negative)) = true.
Proof. now destruct a. Qed.

Lemma selected_length (c : option Drizzle.SQL) (w : World) :
  (length (selected c w) <= length (bookings_rows w))%nat.
Proof.
  unfold selected. induction (bookings_rows w) as [|b l IH]; simpl; [lia|].
  destruct (Database.matches c b); simpl; lia.
Qed.

(** The offset of a page number [p] with [1 <= p], in the range where
    integers are exact. *)
Lemma offset_of_safe (s : string) (p l : Z) :
  parseInt s = of_Z p -> 1 <= p <= 2 ^ 53 -> 0 < l <= 2 ^ 53 ->
  offset_of (str s) (of_Z l) = of_Z ((p - 1) * l).
Proof.
  intros Hs Hp Hl. simpl. rewrite Hs, gt_of_Z_0 by lia.
  destruct (Z.ltb_spec 0 p); [|lia].
  rewrite sub_of_Z_1 by lia. apply mul_of_Z; lia.
Qed.

Section Requests.

Variable other_columns : list string.
Variable other_properties : list string.
Variable engine : Database.Engine.
Variable Date_parse : string -> option Z.

Local Abbreviation Page :=
  (ClinicBookingsPage other_columns other_properties engine Date_parse).

(** X1. A visitor who is not signed in is redirected to the login route;
    the only call made is [currentUser], so no table is read. *)
Theorem signed_out_is_redirected (sp : searchParams.t) (w : World) :
  session w = None ->
  outcome (Page sp) w = inl (redirect_to "/logowanie")
  /\ calls (Page sp) w = [called_currentUser].
Proof.
  intros H. unfold outcome, calls, ClinicBookingsPage, run, bind, currentUser, call.
  simpl. rewrite H. split; reflexivity.
Qed.

End Requests.

(** ** Tokens separated by dots *)

Lemma append_empty_r (s : string) : (s ++ "")%string = s.
Proof. induction s as [|c s IH]; simpl; [reflexivity|now rewrite IH]. Qed.

Lemma append_String_assoc (acc : string) (c : ascii) (s : string) :
  ((acc ++ String c "") ++ s)%string = (acc ++ String c s)%string.
Proof. induction acc as [|d acc IH]; simpl; [reflexivity|now rewrite IH]. Qed.

Lemma split_from_dot_free (acc s : string) :
  dot_free s = true -> split_from "." acc s = [(acc ++ s)%string].
Proof.
  revert acc. induction s as [|c s IH]; intros acc H.
  - simpl. now rewrite append_empty_r.
  - cbn [dot_free] in H. apply andb_prop in H as [Hc Hs].
    apply negb_true_iff in Hc. cbn [split_from]. rewrite Hc.
    rewrite (IH _ Hs). now rewrite append_String_assoc.
Qed.

Lemma split_from_piece (acc a rest : string) :
  dot_free a = true ->
  split_from "." acc (a ++ String "." rest)
  = (acc ++ a)%string :: split_from "." "" rest.
Proof.
  revert acc. induction a as [|c a IH]; intros acc H.
  - simpl. now rewrite append_empty_r.
  - cbn [dot_free] in H. apply andb_prop in H as [Hc Ha].
    apply negb_true_iff in Hc. cbn [append split_from]. rewrite Hc.
    rewrite (IH _ Ha). now rewrite append_String_assoc.
Qed.

(** X5. The sort token is read up to its second dot: a token without a dot
    names a column and no direction, and whatever follows the direction is
    ignored. *)
Theorem sort_token_parts (a b : string) :
  dot_free a = true -> dot_free b = true ->
  column_order_of (str a) = (Some a, None)
  /\ column_order_of (str (a ++ "." ++ b)) = (Some a, Some b)
  /\ forall rest,
      column_order_of (str (a ++ "." ++ b ++ "." ++ rest)) = (Some a, Some b).
Proof.
  intros Ha Hb. unfold column_order_of, split. cbn [if_string]. split; [|split].
  - now rewrite (split_from_dot_free "" a Ha).
  - change (a ++ "." ++ b)%string with (a ++ String "." b)%string.
    rewrite (split_from_piece "" a b Ha), (split_from_dot_free "" b Hb).
    reflexivity.
  - intros rest.
    change (a ++ "." ++ b ++ "." ++ rest)%string
      with (a ++ String "." (b ++ String "." rest))%string.
    rewrite (split_from_piece "" a _ Ha), (split_from_piece "" b rest Hb).
    reflexivity.
Qed.

(** X6. Reading a type token gives back the types it was written from: a
    non-empty list of dot-free names joined by dots parses to that list.
    (The empty token parses to the one-element list of the empty name.) *)
Theorem types_of_join_dots (ts : list string) :
  ts <> [] -> Forall (fun t => dot_free t = true) ts ->
  types_of (str (join_dots ts)) = ts.
Proof.
  intros Hne Hall. unfold types_of, split. cbn [if_string].
  induction Hall as [|t ts Ht Hall IH]; [contradiction|].
  destruct ts as [|t' ts].
  - cbn [join_dots]. now rewrite (split_from_dot_free "" t Ht).
  - change (join_dots (t :: t' :: ts))
      with (t ++ String "." (join_dots (t' :: ts)))%string.
    rewrite (split_from_piece "" t _ Ht). f_equal. now apply IH.
Qed.

(** ** Pages, filters and order of one request *)

Lemma sublist_filter_weaker {A} (f g : A -> bool) (l : list A) :
  (forall x, f x = true -> g x = true) ->
  sublist (List.filter f l) (List.filter g l).
Proof.
  intros Hfg. induction l as [|a l IH]; simpl; [constructor|].
  destruct (f a) eqn:Ef.
  - rewrite (Hfg a Ef). now constructor.
  - destruct (g a); [now constructor|exact IH].
Qed.

Lemma if_string_only_string {A} (v : QueryValue) (k : string -> A) (d : A) :
  if_string (only_string v) k d = if_string v k d.
Proof. now destruct v. Qed.

Section Pages.

Variable other_columns : list string.
Variable other_properties : list string.
Variable engine : Database.Engine.
Variable Date_parse : string -> option Z.

Local Abbreviation Page :=
  (ClinicBookingsPage other_columns other_properties engine Date_parse).

(** X7. For a sort column that is a column of the bookings table, the
    rows are ascending by it only when the direction part is exactly
    [asc]; with any other direction, or none, they are descending by it. *)
Theorem rows_follow_direction (sp : searchParams.t) (w : World) (r : Rendered)
    (column : string) (col : Column) :
  outcome (Page sp) w = inr r ->
  fst (column_order_of (searchParams.sort sp)) = Some column ->
  truthy column = true ->
  bookings_property other_columns other_properties column = Some (is_column col) ->
  (snd (column_order_of (searchParams.sort sp)) = Some "asc" ->
     StronglySorted (Database.ordered_by (Drizzle.asc col)) (data r))
  /\ (snd (column_order_of (searchParams.sort sp)) <> Some "asc" ->
     StronglySorted (Database.ordered_by (Drizzle.desc col)) (data r)).
Proof.
  intros H Hcol Htruthy Hprop.
  destruct (rendered_inv other_columns other_properties engine Date_parse sp w r H)
    as (u & clinic & l & k & _ & _ & _ & _ & _ & _ & _ & Hd & _).
  cbv zeta in Hd. rewrite Hd, Hcol.
  rewrite (orderBy_property _ _ _ _ _ Htruthy Hprop).
  split.
  - intros ->. rewrite String.eqb_refl. apply slice_sorted.
  - intros Hdir.
    destruct (snd (column_order_of (searchParams.sort sp))) as [d|];
      [|apply slice_sorted].
    destruct (String.eqb_spec d "asc") as [->|_]; [now contradiction Hdir|].
    apply slice_sorted.
Qed.

(** X9. With a page size [l] (given, or the default of 10) and a page
    number [p], both positive integers with [p], [l] and [(p - 1) * l] at
    most 2^53, and fewer than 2^53 rows in the table, page [p] shows rows
    exactly when [p] is at most the page count handed to the table. *)
Theorem page_within_pageCount (sp : searchParams.t) (w : World) (r : Rendered)
    (s : string) (p l : Z) :
  searchParams.page sp = str s -> parseInt s = of_Z p -> 1 <= p <= 2 ^ 53 ->
  limit_of (searchParams.per_page sp) = of_Z l -> 0 < l <= 2 ^ 53 ->
  (p - 1) * l <= 2 ^ 53 ->
  Z.of_nat (length (bookings_rows w)) < 2 ^ 53 ->
  outcome (Page sp) w = inr r ->
  exists c : Z, pageCount r = of_Z c /\ (data r <> [] <-> p <= c).
Proof.
  intros Hpage Hs Hp Elim Hl Hprod Hrows H.
  destruct (rendered_inv other_columns other_properties engine Date_parse sp w r H)
    as (u & clinic & l1 & k1 & _ & _ & Hl1 & Hk1 & _ & _ & _ & Hd & Hpc & _).
  cbv zeta in Hl1, Hk1, Hd, Hpc.
  change (count_where Date_parse sp clinic)
    with (items_where Date_parse sp clinic) in Hpc.
  rewrite Elim in Hl1, Hk1, Hpc.
  rewrite Hpage, (offset_of_safe s p l Hs Hp Hl) in Hk1.
  rewrite clause_bound_of_Z in Hl1 by lia. injection Hl1 as <-.
  destruct (clause_bound_nonneg engine ((p - 1) * l) ltac:(nia)) as (k & Ek & Edef).
  rewrite Ek in Hk1. injection Hk1 as <-.
  pose proof (selected_length (items_where Date_parse sp clinic) w) as Hn.
  set (n := length (selected (items_where Date_parse sp clinic) w)) in *.
  assert (Hlen : length (data r)
                 = Nat.min (Z.to_nat l) (n - Z.to_nat ((p - 1) * l))).
  { rewrite Hd, window_take_drop, length_take, length_drop, Edef.
    now rewrite (Permutation_length (merge_sort_Permutation _ _)). }
  unfold pageCount_of in Hpc.
  rewrite (ceil_div_of_Z (Z.of_nat n) l) in Hpc;
    [|lia|lia|apply of_Z_safe; lia].
  pose proof (ceiling_bounds (Z.of_nat n) l ltac:(lia)) as B.
  exists (- (- Z.of_nat n / l)). split; [exact Hpc|].
  generalize dependent (- (- Z.of_nat n / l)). intros c _ B.
  rewrite <- length_zero_iff_nil, Hlen.
  assert (Hk0 : 0 <= (p - 1) * l) by nia.
  remember ((p - 1) * l) as k0 eqn:Ek0. split.
  - intros Hne. assert (k0 < Z.of_nat n) by lia.
    destruct (Z.le_gt_cases p c) as [G|G]; [exact G|exfalso].
    assert (c * l <= k0) by (rewrite Ek0; apply Z.mul_le_mono_nonneg_r; lia).
    lia.
  - intros Hle.
    assert (k0 <= (c - 1) * l) by (rewrite Ek0; apply Z.mul_le_mono_nonneg_r; lia).
    lia.
Qed.

End Pages.

(** ** Which parameters matter, and how *)

Section Parameters.

Variable other_columns : list string.
Variable other_properties : list string.
Variable engine : Database.Engine.
Variable Date_parse : string -> option Z.

Local Abbreviation Page :=
  (ClinicBookingsPage other_columns other_properties engine Date_parse).

(** X10. The type condition is part of the statements exactly when [type]
    is a string, the empty string included; and a type token without a dot
    keeps only the bookings of that one type (the empty token: those whose
    type is the empty text). *)
Theorem type_filter_applied (sp : searchParams.t) (clinic : Clinic) :
  (In bookings_type (where_columns (items_where Date_parse sp clinic)) <->
     is_string (searchParams.type sp) = true)
  /\ forall t b,
      searchParams.type sp = str t -> dot_free t = true ->
      Database.matches (items_where Date_parse sp clinic) b = true ->
      bookings.type b = t.
Proof.
  split.
  - unfold items_where. rewrite and_columns. unfold types_of.
    destruct (searchParams.type sp) as [|t|ts]; cbn [if_string];
      [|unfold split; rewrite split_from_nonempty|];
      destruct (searchParams.lastName sp), (searchParams.email sp),
        (searchParams.from sp), (searchParams.to sp); simpl;
      (split; [intros H; repeat (destruct H as [H|H]; try discriminate H); tauto
              | intros H; try discriminate H; tauto]).
  - intros t b Ht Hdot Hm.
    rewrite items_where_like_filter in Hm. unfold like_filter in Hm.
    apply andb_prop in Hm as [Hm _]. apply andb_prop in Hm as [Hm _].
    apply andb_prop in Hm as [_ Hm].
    unfold of_type in Hm. rewrite Ht in Hm. cbn [if_string] in Hm.
    unfold split in Hm. rewrite (split_from_dot_free "" t Hdot) in Hm.
    simpl in Hm. rewrite orb_false_r in Hm. now apply String.eqb_eq in Hm.
Qed.

(** X11. The answer depends only on the string values of [page],
    [per_page], [sort], [from], [to], [lastName], [type] and [email]: a
    repeated key (an array value) counts as absent, and [date], [time] and
    [slot] are never read. *)
Theorem only_strings_matter (sp : searchParams.t) (w : World) :
  run (Page sp) w = run (Page (effective sp)) w.
Proof.
  assert (Ew : forall clinic,
             items_where Date_parse (effective sp) clinic
             = items_where Date_parse sp clinic).
  { intros clinic. unfold items_where, types_of, day_of.
    cbn [effective searchParams.lastName searchParams.type searchParams.email
         searchParams.from searchParams.to].
    now rewrite !if_string_only_string. }
  unfold ClinicBookingsPage, run, bind.
  destruct (currentUser w []) as [[e|[u|]] log]; [reflexivity| |reflexivity].
  destruct (clinics_findFirst (user.id u) w log) as [[e|[c|]] log'];
    [reflexivity| |reflexivity].
  cbn [effective searchParams.per_page searchParams.page searchParams.sort].
  unfold limit_of, offset_of, column_order_of. rewrite !if_string_only_string.
  unfold transaction.
  change (count_where Date_parse sp c) with (items_where Date_parse sp c).
  change (count_where Date_parse (effective sp) c)
    with (items_where Date_parse (effective sp) c).
  now rewrite (Ew c).
Qed.

(** X12. Filter parameters only narrow the selection: the rows matched by
    any request are among those matched without filter parameters, which
    are exactly the clinic's rows. *)
Theorem filters_only_narrow (sp : searchParams.t) (clinic : Clinic) (w : World) :
  sublist (selected (items_where Date_parse sp clinic) w)
          (selected (items_where Date_parse (no_filters sp) clinic) w)
  /\ selected (items_where Date_parse (no_filters sp) clinic) w
     = List.filter (fun b => bookings.clinicId b =? clinics.id clinic)
         (bookings_rows w).
Proof.
  assert (E : forall b,
             Database.matches (items_where Date_parse (no_filters sp) clinic) b
             = (bookings.clinicId b =? clinics.id clinic)).
  { intros b. rewrite items_where_like_filter. unfold like_filter, of_type, in_date_range.
    cbn [no_filters searchParams.lastName searchParams.type searchParams.email
         searchParams.from searchParams.to if_string].
    now rewrite !andb_true_r. }
  split.
  - apply sublist_filter_weaker. intros b Hb. rewrite E.
    rewrite items_where_like_filter in Hb. unfold like_filter in Hb.
    repeat (apply andb_prop in Hb as [Hb _]). exact Hb.
  - apply List.filter_ext. exact E.
Qed.

(** X13. With both [from] and [to] given and parsed, the date condition
    adds to the other conditions exactly the bounds
    [from <= createdAt <= to], both ends included; a range whose end lies
    before its start matches no row. *)
Theorem date_range_is_inclusive (sp : searchParams.t) (clinic : Clinic)
    (f t : string) (x y : Z) :
  searchParams.from sp = str f -> searchParams.to sp = str t ->
  Date_parse f = Some x -> Date_parse t = Some y ->
  (forall b,
      Database.matches (items_where Date_parse sp clinic) b = true <->
      Database.matches (items_where Date_parse (without_dates sp) clinic) b = true
      /\ x <= bookings.createdAt b <= y)
  /\ (y < x -> forall w, selected (items_where Date_parse sp clinic) w = []).
Proof.
  intros Hf Ht Hx Hy.
  assert (E : forall b,
             Database.matches (items_where Date_parse sp clinic) b = true <->
             Database.matches (items_where Date_parse (without_dates sp) clinic) b = true
             /\ x <= bookings.createdAt b <= y).
  { intros b. rewrite !items_where_like_filter. unfold like_filter, of_type, in_date_range.
    cbn [without_dates searchParams.lastName searchParams.type searchParams.email
         searchParams.from searchParams.to].
    rewrite Hf, Ht, Hx, Hy, andb_true_r, !andb_true_iff, !Z.leb_le. tauto. }
  split; [exact E|].
  intros Hyx w. unfold selected.
  induction (bookings_rows w) as [|b rows IH]; [reflexivity|]. simpl.
  destruct (Database.matches (items_where Date_parse sp clinic) b) eqn:Hb; [|exact IH].
  apply E in Hb. lia.
Qed.

(** X14. A page size of zero, of either sign, puts no limit and no
    offset on the statement: the page shows every matching row, whatever
    [page] is, and the page count is the result of dividing by that zero,
    [NaN] when no row matches and otherwise the infinity with the sign of
    the zero. *)
Theorem zero_page_size (sp : searchParams.t) (w : World) (r : Rendered) (t : string) :
  searchParams.per_page sp = str t -> is_zero (parseInt t) = true ->
  Z.of_nat (length (bookings_rows w)) < 2 ^ 53 ->
  outcome (Page sp) w = inr r ->
  exists (clinic : Clinic) (negative : bool),
    parseInt t = Zero negative
    /\ Permutation (data r) (selected (items_where Date_parse sp clinic) w)
    /\ pageCount r =
        match selected (items_where Date_parse sp clinic) w with
        | [] => NaN
        | _ :: _ => Infinity negative
        end.
Proof.
  intros Hper Hz Hrows H.
  destruct (rendered_inv other_columns other_properties engine Date_parse sp w r H)
    as (u & clinic & l & k & _ & _ & Hl & Hk & _ & _ & _ & Hd & Hp & _).
  cbv zeta in Hl, Hk, Hd, Hp.
  destruct (parseInt t) as [|?|negative|?] eqn:Ht; try discriminate Hz.
  assert (Elim : limit_of (searchParams.per_page sp) = Zero negative).
  { rewrite Hper. simpl. exact Ht. }
  rewrite Elim in Hl, Hk, Hp.
  rewrite clause_bound_falsy in Hl by reflexivity. injection Hl as <-.
  rewrite clause_bound_falsy in Hk.
  2:{ destruct (searchParams.page sp) as [|s|ss]; simpl; try reflexivity.
      destruct (gt (parseInt s) (of_Z 0)); [apply mul_zero_r_falsy|reflexivity]. }
  injection Hk as <-.
  exists clinic, negative. split; [reflexivity|]. split.
  - rewrite Hd. unfold Database.window. simpl. apply merge_sort_Permutation.
  - rewrite Hp.
    change (count_where Date_parse sp clinic) with (items_where Date_parse sp clinic).
    pose proof (selected_length (items_where Date_parse sp clinic) w) as Hn.
    destruct (selected (items_where Date_parse sp clinic) w) as [|b rows];
      [reflexivity|].
    rewrite of_Z_safe by (cbn [length] in *; lia).
    unfold pageCount_of, div, Math_ceil, Q_sign_neg, inject_Z. cbn [Qnum].
    destruct (Z.ltb_spec (Z.of_nat (length (b :: rows))) 0);
      [cbn [length] in *; lia|]. now destruct negative.
Qed.

(** X15. The page count does not depend on the page shown nor on the sort
    order: requests that differ only in [page] and [sort] get the same
    page count and the same clinic. *)
Theorem pageCount_same_on_every_page (sp : searchParams.t) (w : World)
    (r r' : Rendered) (page' sort' : string) :
  outcome (Page sp) w = inr r ->
  outcome (Page (with_page page' (with_sort sort' sp))) w = inr r' ->
  pageCount r' = pageCount r /\ clinicId r' = clinicId r.
Proof.
  intros H H'.
  destruct (rendered_inv other_columns other_properties engine Date_parse sp w r H)
    as (u & clinic & l & k & Hu & Hc & _ & _ & _ & _ & _ & _ & Hp & Hid & _).
  destruct (rendered_inv other_columns other_properties engine Date_parse _ w r' H')
    as (u' & clinic' & l' & k' & Hu' & Hc' & _ & _ & _ & _ & _ & _ & Hp' & Hid' & _).
  rewrite Hu in Hu'. injection Hu' as <-. rewrite Hc in Hc'. injection Hc' as <-.
  split; [|congruence].
  rewrite Hp, Hp'. reflexivity.
Qed.

End Parameters.

(** ** The calls of a request *)

Section Calls.

Variable other_columns : list string.
Variable other_properties : list string.
Variable engine : Database.Engine.
Variable Date_parse : string -> option Z.

Local Abbreviation Page :=
  (ClinicBookingsPage other_columns other_properties engine Date_parse).

(** The calls of any request, rendered or not: a prefix of the sequence
    user, clinic, rows, count. *)
Lemma calls_cases (sp : searchParams.t) (w : World) :
  calls (Page sp) w = [called_currentUser]
  \/ exists u,
      session w = Some u /\
      (calls (Page sp) w = [called_currentUser; queried_clinics (user.id u)]
       \/ exists clinic o limit offset,
           clinic_of w u = Some clinic /\
           (calls (Page sp) w =
              [called_currentUser; queried_clinics (user.id u);
               selected_bookings (items_where Date_parse sp clinic) o limit offset]
            \/ calls (Page sp) w =
              [called_currentUser; queried_clinics (user.id u);
               selected_bookings (items_where Date_parse sp clinic) o limit offset;
               counted_bookings (count_where Date_parse sp clinic)])).
Proof.
  unfold calls, ClinicBookingsPage, run, bind, currentUser, call. simpl.
  destruct (session w) as [u|] eqn:Hu; [|now left].
  right. exists u. split; [reflexivity|].
  unfold clinics_findFirst, call. simpl. fold (clinic_of w u).
  destruct (clinic_of w u) as [clinic|] eqn:Hc; [|now left].
  right.
  exists clinic,
    (items_orderBy other_columns other_properties
       (fst (column_order_of (searchParams.sort sp)))
       (snd (column_order_of (searchParams.sort sp)))),
    (limit_of (searchParams.per_page sp)),
    (offset_of (searchParams.page sp) (limit_of (searchParams.per_page sp))).
  split; [reflexivity|].
  unfold transaction, bind, tx_select, tx_count, call. simpl.
  destruct (of_option (Database.select_from _ _ _ _ _ _)) as [e|items];
    [now left|].
  right. simpl.
  destruct (of_option (Database.select_count_from _ _)) as [e|res]; reflexivity.
Qed.

(** X16. No statement on bookings is ever sent without the tenant
    condition: whatever the request and its outcome, every select or count
    in the log of calls was made for a signed-in user who owns a clinic,
    and its condition holds only of rows of that clinic. *)
Theorem statements_carry_tenant (sp : searchParams.t) (w : World)
    (cond : option Drizzle.SQL) :
  (exists o limit offset,
      In (selected_bookings cond o limit offset) (calls (Page sp) w))
  \/ In (counted_bookings cond) (calls (Page sp) w) ->
  exists u clinic,
    session w = Some u /\ clinic_of w u = Some clinic /\
    forall b, Database.matches cond b = true ->
      bookings.clinicId b = clinics.id clinic.
Proof.
  intros H.
  assert (G : forall u clinic,
             session w = Some u -> clinic_of w u = Some clinic ->
             cond = items_where Date_parse sp clinic ->
             exists u clinic,
               session w = Some u /\ clinic_of w u = Some clinic /\
               forall b, Database.matches cond b = true ->
                 bookings.clinicId b = clinics.id clinic).
  { intros u clinic Hu Hc ->. exists u, clinic.
    split; [exact Hu|]. split; [exact Hc|]. apply items_where_tenant. }
  destruct (calls_cases sp w)
    as [E|(u & Hu & [E|(clinic & o & l & k & Hc & [E|E])])];
    rewrite E in H; simpl in H.
  - destruct H as [(o' & l' & k' & [H|[]])|[H|[]]]; discriminate H.
  - destruct H as [(o' & l' & k' & [H|[H|[]]])|[H|[H|[]]]]; discriminate H.
  - destruct H as [(o' & l' & k' & [H|[H|[H|[]]]])|[H|[H|[H|[]]]]];
      try discriminate H.
    injection H as <- _ _ _. now apply (G u clinic).
  - destruct H as [(o' & l' & k' & [H|[H|[H|[H|[]]]]])|[H|[H|[H|[H|[]]]]]];
      try discriminate H.
    + injection H as <- _ _ _. now apply (G u clinic).
    + injection H as <-. now apply (G u clinic).
Qed.

(** X19. The page never asks for an offset without a limit: when the
    statement carries no LIMIT clause (the page size is [NaN] or a zero),
    the offset is [NaN] or a zero too, and the statement carries no OFFSET
    clause either. *)
Theorem offset_needs_limit (page per_page : QueryValue) :
  Database.clause_bound engine (limit_of per_page) = Some None ->
  falsy (limit_of per_page) = true
  /\ falsy (offset_of page (limit_of per_page)) = true
  /\ Database.clause_bound engine (offset_of page (limit_of per_page)) = Some None.
Proof.
  intros H.
  assert (F : falsy (limit_of per_page) = true).
  { unfold Database.clause_bound in H.
    destruct (falsy (limit_of per_page)); [reflexivity|].
    destruct (Database.natural (limit_of per_page)); [discriminate H|].
    destruct (Database.bound_of engine (limit_of per_page)); discriminate H. }
  assert (G : falsy (offset_of page (limit_of per_page)) = true).
  { destruct page as [|s|ss]; simpl; try reflexivity.
    destruct (gt (parseInt s) (of_Z 0)); [|reflexivity].
    destruct (limit_of per_page); try discriminate F.
    - now destruct (sub (parseInt s) (of_Z 1)).
    - apply mul_zero_r_falsy. }
  split; [exact F|]. split; [exact G|]. now apply clause_bound_falsy.
Qed.

(** X17. When [page] is absent the request has the outcome of the one for
    [page=1], whatever the page size: in both the offset is a zero or
    [NaN], and the statement carries no offset. *)
Theorem absent_page_is_first_page (sp : searchParams.t) (w : World) :
  is_string (searchParams.page sp) = false ->
  outcome (Page sp) w = outcome (Page (with_page "1" sp)) w
  /\ Database.clause_bound engine
       (offset_of (searchParams.page sp) (limit_of (searchParams.per_page sp)))
     = Some None
  /\ Database.clause_bound engine
       (offset_of (str "1") (limit_of (searchParams.per_page sp)))
     = Some None.
Proof.
  intros Hpage.
  assert (E0 : Database.clause_bound engine
                 (offset_of (searchParams.page sp) (limit_of (searchParams.per_page sp)))
               = Some None).
  { apply clause_bound_falsy. now destruct (searchParams.page sp). }
  assert (E1 : Database.clause_bound engine
                 (offset_of (str "1") (limit_of (searchParams.per_page sp)))
               = Some None).
  { apply clause_bound_falsy.
    change (offset_of (str "1") (limit_of (searchParams.per_page sp)))
      with (mul (Zero false) (limit_of (searchParams.per_page sp))).
    apply mul_zero_l_falsy. }
  split; [|split; [exact E0|exact E1]].
  unfold outcome, ClinicBookingsPage, run, bind.
  destruct (currentUser w []) as [[e|[u|]] log]; [reflexivity| |reflexivity].
  destruct (clinics_findFirst (user.id u) w log) as [[e|[c|]] log'];
    [reflexivity| |reflexivity].
  cbn [with_page searchParams.per_page searchParams.page searchParams.sort].
  destruct (column_order_of (searchParams.sort sp)) as [column order].
  unfold transaction, bind, tx_select, tx_count, call, Database.select_from.
  change (items_where Date_parse (with_page "1" sp) c)
    with (items_where Date_parse sp c).
  change (count_where Date_parse (with_page "1" sp) c)
    with (count_where Date_parse sp c).
  rewrite E0, E1.
  destruct (Database.sendable (items_where Date_parse sp c)
            && Database.order_accepted engine _); [|reflexivity].
  destruct (Database.clause_bound engine (limit_of (searchParams.per_page sp)))
    as [[l|]|]; cbn [Database.window_accepted of_option]; try reflexivity;
    destruct (of_option (Database.select_count_from _ _)); reflexivity.
Qed.

(** X18. An empty [lastName] or [email] parameter is a string, so its
    [LIKE] condition is sent, but the pattern [%%] holds of every text: the
    rows matched are those matched without the two parameters. *)
Theorem empty_text_filters_match_all (sp : searchParams.t) (clinic : Clinic)
    (b : Booking) :
  searchParams.lastName sp = str "" -> searchParams.email sp = str "" ->
  In bookings_lastName (where_columns (items_where Date_parse sp clinic))
  /\ In bookings_email (where_columns (items_where Date_parse sp clinic))
  /\ Database.matches (items_where Date_parse sp clinic) b
     = Database.matches (items_where Date_parse (without_texts sp) clinic) b.
Proof.
  intros Hl He.
  assert (A : forall s, Drizzle.sql_like s ("%" ++ "" ++ "%")%string = true).
  { intros s. rewrite (like_includes s "" eq_refl). apply includes_spec.
    exists "", s. reflexivity. }
  split; [|split].
  - unfold items_where. rewrite and_columns, Hl. simpl. tauto.
  - unfold items_where. rewrite and_columns, He, Hl. simpl.
    destruct (0 <? length (types_of (searchParams.type sp)))%nat; simpl; tauto.
  - rewrite !items_where_like_filter. unfold like_filter, of_type, in_date_range.
    cbn [without_texts searchParams.lastName searchParams.type searchParams.email
         searchParams.from searchParams.to].
    rewrite Hl, He. cbn [if_string]. now rewrite !A.
Qed.

End Calls.

(** ** The further properties on the demo database *)

Lemma signed_out_is_redirected_demo :
  session demo_world_signed_out = None
  /\ outcome (ClinicBookingsPage [] [] demo_engine demo_Date_parse no_params)
       demo_world_signed_out
     = inl (redirect_to "/logowanie").
Proof.
  split; [reflexivity|].
  apply (signed_out_is_redirected [] [] demo_engine demo_Date_parse no_params
           demo_world_signed_out).
  reflexivity.
Defined.

Lemma sort_token_parts_demo :
  column_order_of (str "lastName.asc.extra") = (Some "lastName", Some "asc").
Proof.
  apply (proj2 (proj2 (sort_token_parts "lastName" "asc" eq_refl eq_refl)) "extra").
Defined.

Lemma types_of_join_dots_demo :
  types_of (str (join_dots ["consultation"; "checkup"]))
  = ["consultation"; "checkup"].
Proof.
  apply (types_of_join_dots ["consultation"; "checkup"]).
  - discriminate.
  - repeat constructor.
Defined.

Lemma rows_follow_direction_demo :
  outcome (ClinicBookingsPage [] [] demo_engine demo_Date_parse
             (with_sort "lastName" no_params))
    demo_world = inr demo_rendered
  /\ StronglySorted (Database.ordered_by (Drizzle.desc bookings_lastName))
       (data demo_rendered).
Proof.
  split; [reflexivity|].
  apply (proj2 (rows_follow_direction [] [] demo_engine demo_Date_parse
                  (with_sort "lastName" no_params) demo_world demo_rendered
                  "lastName" bookings_lastName
                  eq_refl eq_refl eq_refl eq_refl)).
  discriminate.
Defined.

Lemma page_within_pageCount_demo :
  outcome (ClinicBookingsPage [] [] demo_engine demo_Date_parse
             (with_page "2" (with_per_page "2" no_params))) demo_world
    = inr demo_page_2_of_2
  /\ exists c : Z,
      pageCount demo_page_2_of_2 = of_Z c /\ (data demo_page_2_of_2 <> [] <-> 2 <= c).
Proof.
  split; [reflexivity|].
  apply (page_within_pageCount [] [] demo_engine demo_Date_parse
           (with_page "2" (with_per_page "2" no_params)) demo_world
           demo_page_2_of_2 "2" 2 2);
    solve [reflexivity | lia | simpl; lia].
Defined.

Lemma type_filter_applied_demo :
  Database.matches (items_where demo_Date_parse (with_type "checkup" no_params) demo_clinic)
    (booking 1 7 "Kowalski" "anna@clinic.pl" "checkup" 100) = true
  /\ bookings.type (booking 1 7 "Kowalski" "anna@clinic.pl" "checkup" 100) = "checkup".
Proof.
  split; [reflexivity|].
  apply (proj2 (type_filter_applied demo_Date_parse
                  (with_type "checkup" no_params) demo_clinic)
           "checkup" (booking 1 7 "Kowalski" "anna@clinic.pl" "checkup" 100));
    reflexivity.
Defined.

(** A booking made at the first instant of 2 January 1970 is within the
    range from 1 January to 2 January; no booking is within the range
    from 2 January to 1 January. *)
Lemma date_range_is_inclusive_demo :
  demo_Date_parse "1970-01-01" = Some 0
  /\ demo_Date_parse "1970-01-02" = Some 86400000
  /\ Database.matches
       (items_where demo_Date_parse
          (with_from "1970-01-01" (with_to "1970-01-02" no_params)) demo_clinic)
       (booking 5 7 "Lis" "lis@clinic.pl" "checkup" 86400000) = true
  /\ selected
       (items_where demo_Date_parse
          (with_from "1970-01-02" (with_to "1970-01-01" no_params)) demo_clinic)
       demo_world = [].
Proof.
  split; [reflexivity|]. split; [reflexivity|]. split.
  - apply (proj1 (date_range_is_inclusive demo_Date_parse
                    (with_from "1970-01-01" (with_to "1970-01-02" no_params))
                    demo_clinic "1970-01-01" "1970-01-02" 0 86400000
                    eq_refl eq_refl eq_refl eq_refl)).
    split; [reflexivity|]. simpl. lia.
  - apply (proj2 (date_range_is_inclusive demo_Date_parse
                    (with_from "1970-01-02" (with_to "1970-01-01" no_params))
                    demo_clinic "1970-01-02" "1970-01-01" 86400000 0
                    eq_refl eq_refl eq_refl eq_refl)).
    lia.
Defined.

(** With [per_page=-0] and [page=3] the page shows all three bookings of
    the clinic, and the page count is the negative infinity. *)
Lemma zero_page_size_demo :
  outcome (ClinicBookingsPage [] [] demo_engine demo_Date_parse
             (with_page "3" (with_per_page "-0" no_params))) demo_world
    = inr {| data := data demo_rendered; pageCount := Infinity true; clinicId := 7 |}
  /\ is_zero (parseInt "-0") = true
  /\ Z.of_nat (length (bookings_rows demo_world)) < 2 ^ 53
  /\ exists (clinic : Clinic) (negative : bool),
      parseInt "-0" = Zero negative
      /\ Permutation (data demo_rendered)
           (selected (items_where demo_Date_parse
                        (with_page "3" (with_per_page "-0" no_params)) clinic)
              demo_world)
      /\ Infinity true =
         match selected (items_where demo_Date_parse
                           (with_page "3" (with_per_page "-0" no_params)) clinic)
                 demo_world with
         | [] => NaN
         | _ :: _ => Infinity negative
         end.
Proof.
  split; [reflexivity|]. split; [reflexivity|]. split; [simpl; lia|].
  apply (zero_page_size [] [] demo_engine demo_Date_parse
           (with_page "3" (with_per_page "-0" no_params)) demo_world
           {| data := data demo_rendered; pageCount := Infinity true; clinicId := 7 |}
           "-0");
    solve [reflexivity | simpl; lia].
Defined.

Lemma pageCount_same_on_every_page_demo :
  outcome (ClinicBookingsPage [] [] demo_engine demo_Date_parse
             (with_per_page "2" no_params))
    demo_world = inr demo_page_1_of_2
  /\ outcome (ClinicBookingsPage [] [] demo_engine demo_Date_parse
                (with_page "2" (with_sort "createdAt.desc" (with_per_page "2" no_params))))
       demo_world = inr demo_page_2_of_2
  /\ pageCount demo_page_2_of_2 = pageCount demo_page_1_of_2.
Proof.
  split; [reflexivity|]. split; [reflexivity|].
  apply (pageCount_same_on_every_page [] [] demo_engine demo_Date_parse
           (with_per_page "2" no_params) demo_world
           demo_page_1_of_2 demo_page_2_of_2 "2" "createdAt.desc");
    reflexivity.
Defined.

Lemma statements_carry_tenant_demo :
  In (counted_bookings (count_where demo_Date_parse no_params demo_clinic))
     (calls (ClinicBookingsPage [] [] demo_engine demo_Date_parse no_params) demo_world)
  /\ exists u clinic,
      session demo_world = Some u /\ clinic_of demo_world u = Some clinic /\
      forall b,
        Database.matches (count_where demo_Date_parse no_params demo_clinic) b = true ->
        bookings.clinicId b = clinics.id clinic.
Proof.
  assert (H : In (counted_bookings (count_where demo_Date_parse no_params demo_clinic))
                (calls (ClinicBookingsPage [] [] demo_engine demo_Date_parse no_params)
                   demo_world)).
  { simpl. right. right. right. left. reflexivity. }
  split; [exact H|].
  apply (statements_carry_tenant [] [] demo_engine demo_Date_parse no_params demo_world).
  right. exact H.
Defined.

Lemma absent_page_is_first_page_demo :
  is_string (searchParams.page no_params) = false
  /\ outcome (ClinicBookingsPage [] [] demo_engine demo_Date_parse no_params) demo_world
     = outcome (ClinicBookingsPage [] [] demo_engine demo_Date_parse
                  (with_page "1" no_params)) demo_world
  /\ outcome (ClinicBookingsPage [] [] demo_engine demo_Date_parse no_params) demo_world
     = inr demo_rendered.
Proof.
  split; [reflexivity|]. split; [|reflexivity].
  apply (absent_page_is_first_page [] [] demo_engine demo_Date_parse no_params demo_world).
  reflexivity.
Defined.

Lemma offset_needs_limit_demo :
  Database.clause_bound demo_engine (limit_of (str "abc")) = Some None
  /\ Database.clause_bound demo_engine (offset_of (str "3") (limit_of (str "abc")))
     = Some None.
Proof.
  split; [reflexivity|].
  apply (offset_needs_limit demo_engine (str "3") (str "abc")). reflexivity.
Defined.

Lemma empty_text_filters_match_all_demo :
  Database.matches
    (items_where demo_Date_parse (with_lastName "" (with_email "" no_params)) demo_clinic)
    (booking 2 7 "Nowak" "jan@poczta.pl" "consultation" 200)
  = Database.matches
      (items_where demo_Date_parse
         (without_texts (with_lastName "" (with_email "" no_params))) demo_clinic)
      (booking 2 7 "Nowak" "jan@poczta.pl" "consultation" 200).
Proof.
  apply (proj2 (proj2 (empty_text_filters_match_all demo_Date_parse
                         (with_lastName "" (with_email "" no_params)) demo_clinic
                         (booking 2 7 "Nowak" "jan@poczta.pl" "consultation" 200)
                         eq_refl eq_refl))).
Defined.
